(** * Git-Some: the repository accessor (code_garden/models.py) and the
    task store (code_garden/todos.py), embedded and verified.

    Layout:
    - [Py]      the Python built-ins the two modules lean on (exceptions,
                [str] methods, [int], stable [sorted]);
    - [Todos]   code_garden/todos.py: the [tasks] table and class [Task];
    - [Models]  code_garden/models.py: [Repository], [Branch], [LogItem],
                [DiffItem], [IgnoreItem].

    Python [str] values are modelled by [string]; a character stands for
    the code point of the same number, so the model covers the code points
    below 256. *)

From Stdlib Require Import ZArith String Ascii List Lia Permutation Sorted.
From Stdlib Require Import DecimalString DecimalZ.
From stdpp Require Import base list sorting strings gmap.


(* ================================================================== *)
(** * Python built-ins *)
(* ================================================================== *)

Module Py.

(** Exceptions that the modelled code can raise. *)
Inductive exn : Type :=
| TypeError
| IndexError
| ValueError
| AttributeError
| OverflowError
| FileNotFoundError
| OSError
| OperationalError.

(** The outcome of evaluating an expression that may raise. *)
Inductive result (A : Type) : Type :=
| Ok (a : A)
| Raise (e : exn).
Arguments Ok {A} a.
Arguments Raise {A} e.

Definition bind {A B : Type} (r : result A) (k : A -> result B) : result B :=
  match r with
  | Ok a => k a
  | Raise e => Raise e
  end.

Notation "x <- r ;; k" := (bind r (fun x => k))
  (at level 100, r at next level, right associativity).

(** [try: r except: d] with a bare [except]. *)
Definition try_except {A : Type} (r : result A) (d : A) : A :=
  match r with
  | Ok a => a
  | Raise _ => d
  end.

(** [[f(x) for x in l]] where [f] may raise: left to right, the first
    exception wins. *)
Fixpoint mapM {A B : Type} (f : A -> result B) (l : list A) : result (list B) :=
  match l with
  | [] => Ok []
  | x :: xs => y <- f x ;; ys <- mapM f xs ;; Ok (y :: ys)
  end.

(** [l[i]] for a non-negative index. *)
Definition index {A : Type} (l : list A) (i : nat) : result A :=
  match nth_error l i with
  | Some a => Ok a
  | None => Raise IndexError
  end.

Definition LF : ascii := "010"%char.
Definition CR : ascii := "013"%char.
Definition TAB : ascii := "009"%char.

(** [str.isspace] on one character: the code points below 256 that Python
    treats as whitespace (9-13, 28-32, 133 and 160). *)
Definition is_space (c : ascii) : bool :=
  let n := nat_of_ascii c in
  ((9 <=? n) && (n <=? 13)) || ((28 <=? n) && (n <=? 32))
  || (n =? 133) || (n =? 160).

Fixpoint lstrip (s : string) : string :=
  match s with
  | EmptyString => EmptyString
  | String c r => if is_space c then lstrip r else s
  end.

Fixpoint rstrip (s : string) : string :=
  match s with
  | EmptyString => EmptyString
  | String c r =>
      match rstrip r with
      | EmptyString => if is_space c then EmptyString else String c EmptyString
      | r' => String c r'
      end
  end.

(** [s.strip()] *)
Definition strip (s : string) : string := rstrip (lstrip s).

(** [s.split(sep)] for a one-character separator: never empty, keeps empty
    fields. *)
Fixpoint split (sep : ascii) (s : string) : list string :=
  match s with
  | EmptyString => [EmptyString]
  | String c r =>
      if Ascii.eqb c sep then EmptyString :: split sep r
      else match split sep r with
           | f :: fs => String c f :: fs
           | [] => [String c EmptyString]
           end
  end.

(** [s.split()]: runs of whitespace separate, no empty fields. *)
Fixpoint split_ws (s : string) : list string :=
  match s with
  | EmptyString => []
  | String c r =>
      if is_space c then split_ws r
      else match r with
           | EmptyString => [String c EmptyString]
           | String c' _ =>
               if is_space c' then String c EmptyString :: split_ws r
               else match split_ws r with
                    | w :: ws => String c w :: ws
                    | [] => [String c EmptyString]
                    end
           end
  end.

(** [s.startswith(p)] *)
Definition startswith (s p : string) : bool := String.prefix p s.

Fixpoint replace_go (old new : string) (skip : nat) (s : string) : string :=
  match s with
  | EmptyString => EmptyString
  | String c r =>
      match skip with
      | S k => replace_go old new k r
      | O =>
          if String.prefix old s
          then new +:+ replace_go old new (String.length old - 1) r
          else String c (replace_go old new 0 r)
      end
  end.

Fixpoint interleave (new s : string) : string :=
  match s with
  | EmptyString => new
  | String c r => new +:+ String c (interleave new r)
  end.

(** [s.replace(old, new)]: every occurrence, scanning from the left,
    occurrences do not overlap. *)
Definition replace (s old new : string) : string :=
  match old with
  | EmptyString => interleave new s
  | _ => replace_go old new 0 s
  end.

(** Text-mode reading with [newline=None]: a carriage return, alone or
    followed by a line feed, is read as one line feed. *)
Fixpoint universal_newlines (s : string) : string :=
  match s with
  | EmptyString => EmptyString
  | String c r =>
      if Ascii.eqb c CR
      then String LF
             match r with
             | String c' r' =>
                 if Ascii.eqb c' LF then universal_newlines r'
                 else universal_newlines r
             | EmptyString => EmptyString
             end
      else String c (universal_newlines r)
  end.

(** The lines of a text, each with its line feed when it has one. *)
Fixpoint keep_lines (s : string) : list string :=
  match s with
  | EmptyString => []
  | String c r =>
      if Ascii.eqb c LF then String c EmptyString :: keep_lines r
      else match keep_lines r with
           | l :: ls => String c l :: ls
           | [] => [String c EmptyString]
           end
  end.

(** [f.read()] and [f.readlines()] of a text-mode file with the given
    stored text. *)
Definition read (stored : string) : string := universal_newlines stored.

Definition readlines (stored : string) : list string :=
  keep_lines (universal_newlines stored).

(** Truth value of a string: non-empty. *)
Definition truthy (s : string) : bool :=
  match s with
  | EmptyString => false
  | String _ _ => true
  end.

(** Decimal digits with single underscores between them, as [int] accepts
    them: [acc] is the value so far, [prev] tells whether the previous
    character was a digit. *)
Definition digit_of (c : ascii) : option Z :=
  let n := nat_of_ascii c in
  if (48 <=? n) && (n <=? 57) then Some (Z.of_nat (n - 48)) else None.

Definition is_underscore (c : ascii) : bool := Ascii.eqb c "_"%char.

Fixpoint int_digits (acc : Z) (prev : bool) (s : string) : option Z :=
  match s with
  | EmptyString => if prev then Some acc else None
  | String c r =>
      match digit_of c with
      | Some d => int_digits (10 * acc + d) true r
      | None =>
          if is_underscore c && prev then int_digits acc false r else None
      end
  end.

(** [int(s)] on a string: surrounding whitespace, an optional sign, then
    digits. *)
Definition int (s : string) : result Z :=
  let body (sign : Z) (t : string) : result Z :=
    match int_digits 0 false t with
    | Some z => Ok (sign * z)%Z
    | None => Raise ValueError
    end in
  match strip s with
  | String c r =>
      if Ascii.eqb c "-"%char then body (-1)%Z r
      else if Ascii.eqb c "+"%char then body 1%Z r
      else body 1%Z (String c r)
  | EmptyString => Raise ValueError
  end.

(** [str(z)] for an integer. *)
Definition str_of_int (z : Z) : string :=
  NilZero.string_of_int (Z.to_int z).


(** ** [sorted(l, key=...)]

    Python's [sorted] computes the key of every element and sorts stably,
    comparing keys with [<] only.  It is modelled by a stable insertion
    sort: when no comparison raises and [<] orders the keys, every stable
    sort returns this list. *)
Section Sorted.
Context {A K : Type}.
Variable lt : K -> K -> result bool.
Variable key : A -> K.

Fixpoint insert (x : A) (l : list A) : result (list A) :=
  match l with
  | [] => Ok [x]
  | y :: ys =>
      b <- lt (key y) (key x) ;;
      if b then (r <- insert x ys ;; Ok (y :: r)) else Ok (x :: l)
  end.

Fixpoint sorted (l : list A) : result (list A) :=
  match l with
  | [] => Ok []
  | x :: xs => s <- sorted xs ;; insert x s
  end.
End Sorted.

(** ** [datetime.datetime], without a time zone *)
Record datetime : Type := Datetime {
  year : Z; month : Z; day : Z;
  hour : Z; minute : Z; second : Z; microsecond : Z
}.

(** [datetime.datetime.min] *)
Definition datetime_min : datetime := Datetime 1 1 1 0 0 0 0.

(** ["%0<w>d" % n] for a non-negative [n]. *)
Definition zero_pad (w : nat) (n : Z) : string :=
  let s := str_of_int n in
  String.concat "" (List.repeat "0" (w - String.length s)) +:+ s.

(** [d.isoformat(sep)] *)
Definition isoformat (d : datetime) (sep : string) : string :=
  zero_pad 4 (year d) +:+ "-" +:+ zero_pad 2 (month d) +:+ "-"
  +:+ zero_pad 2 (day d) +:+ sep
  +:+ zero_pad 2 (hour d) +:+ ":" +:+ zero_pad 2 (minute d) +:+ ":"
  +:+ zero_pad 2 (second d)
  +:+ (if (microsecond d =? 0)%Z then "" else "." +:+ zero_pad 6 (microsecond d)).

(** [s.ljust(w)] *)
Definition ljust (w : nat) (s : string) : string :=
  s +:+ String.concat "" (List.repeat " " (w - String.length s)).

End Py.

Import Py.

(* ================================================================== *)
(** * code_garden/todos.py *)
(* ================================================================== *)

Module Todos.

(** The value of [Task.date_added]: the constructor is given a
    [datetime.datetime] by [add_todo] and the stored text by [Task.get]. *)
Inductive date_value : Type :=
| DateObj (d : datetime)
| DateText (s : string).

(** class [Task] *)
Record Task : Type := mkTask {
  title : string;
  description : option string;
  tag : option string;
  date_added : date_value;
  status : string;
  id : option Z
}.

(** One record of the table
    [tasks (title TEXT, description TEXT, tag TEXT, date_added DATETIME,
            status TEXT, id INTEGER PRIMARY KEY AUTOINCREMENT)]. *)
Record row : Type := mkRow {
  r_title : string;
  r_description : option string;
  r_tag : option string;
  r_date_added : string;
  r_status : string;
  r_id : Z
}.

(** The database behind the module-level [db] and [cursor]: the table in
    storage order and the AUTOINCREMENT counter that sqlite keeps for it
    (the largest id ever assigned). *)
Record db : Type := mkDb {
  rows : list row;
  seq : Z
}.

(** A method of the module: it may read and change the database, and it
    returns or raises. *)
Definition M (A : Type) : Type := db -> result A * db.

(** The largest id sqlite can assign (2^63 - 1). *)
Definition MAX_ROWID : Z := 9223372036854775807.

Definition max_rowid (rs : list row) : Z :=
  fold_right (fun r m => Z.max (r_id r) m) 0%Z rs.

(** The id an INSERT without an id receives under AUTOINCREMENT: one more
    than the largest id ever present in the table. *)
Definition next_rowid (st : db) : Z :=
  (Z.max (seq st) (max_rowid (rows st)) + 1)%Z.

(** How the [sqlite3] module binds a [date_added] parameter: a
    [datetime.datetime] goes through the default adapter,
    [isoformat(" ")]; a [str] is bound as it is.  The stored text is
    taken not to be a numeric literal (no adapter output is one), so the
    column keeps it as text. *)
Definition adapt_date (v : date_value) : string :=
  match v with
  | DateObj d => isoformat d " "
  | DateText s => s
  end.

(** The record that [Task.add] inserts for [t] when sqlite assigns [i]. *)
Definition row_of_task (t : Task) (i : Z) : row :=
  mkRow (title t) (description t) (tag t) (adapt_date (date_added t))
        (status t) i.

(** [Task(i[0], i[1], i[2], i[3], i[4], i[5])] for a fetched record. *)
Definition task_of_row (r : row) : Task :=
  mkTask (r_title r) (r_description r) (r_tag r) (DateText (r_date_added r))
         (r_status r) (Some (r_id r)).

(** [str(id)] for an id that is an [int] or [None]. *)
Definition str_of_id (i : option Z) : string :=
  match i with
  | Some z => str_of_int z
  | None => "None"
  end.

(** The integer that sqlite reads in a text compared with the INTEGER
    column [id]: a decimal integer literal converts, any other text does
    not. *)
Definition sqlite_int_of_text (s : string) : option Z :=
  option_map Z.of_int (NilZero.int_of_string s).

(** [WHERE id=?] with a text parameter. *)
Definition id_matches (param : string) (r : row) : bool :=
  match sqlite_int_of_text param with
  | Some z => (r_id r =? z)%Z
  | None => false
  end.

(** [Task.add]: the INSERT fails when the ids are used up. *)
Definition add (t : Task) : M unit := fun st =>
  let i := next_rowid st in
  if (i <=? MAX_ROWID)%Z
  then (Ok tt, mkDb (rows st ++ [row_of_task t i]) i)
  else (Raise OperationalError, st).

(** [Task.get]: [fetchone()] is [None] when no record matches, and
    [result[0]] then raises [TypeError]. *)
Definition get (i : Z) : M Task := fun st =>
  match List.find (id_matches (str_of_int i)) (rows st) with
  | Some r => (Ok (task_of_row r), st)
  | None => (Raise TypeError, st)
  end.

(** The key of [see_list]:
    [(x.status == "completed", x.status != "active", x.id)]. *)
Definition sort_key (x : Task) : bool * bool * option Z :=
  (String.eqb (status x) "completed", negb (String.eqb (status x) "active"),
   id x).

(** [a < b] on two ids: [None] is ordered with nothing. *)
Definition id_lt (a b : option Z) : result bool :=
  match a, b with
  | Some x, Some y => Ok (x <? y)%Z
  | _, _ => Raise TypeError
  end.

Definition id_eq (a b : option Z) : bool :=
  match a, b with
  | Some x, Some y => (x =? y)%Z
  | None, None => true
  | _, _ => false
  end.

(** [a < b] on two booleans: [False < True]. *)
Definition bool_lt (a b : bool) : bool := negb a && b.

(** [a < b] on two keys: the first component where they differ decides. *)
Definition key_lt (a b : bool * bool * option Z) : result bool :=
  let '(a1, a2, a3) := a in
  let '(b1, b2, b3) := b in
  if negb (Bool.eqb a1 b1) then Ok (bool_lt a1 b1)
  else if negb (Bool.eqb a2 b2) then Ok (bool_lt a2 b2)
  else if id_eq a3 b3 then Ok false
  else id_lt a3 b3.

(** [Task.see_list] *)
Definition see_list : M (list Task) := fun st =>
  (sorted key_lt sort_key (map task_of_row (rows st)), st).

(** [Task.edit] *)
Definition edit (t : Task) : M unit := fun st =>
  let upd (r : row) : row :=
    if id_matches (str_of_id (id t)) r
    then mkRow (title t) (description t) (tag t) (r_date_added r)
               (status t) (r_id r)
    else r in
  (Ok tt, mkDb (map upd (rows st)) (seq st)).

(** [Task.delete] *)
Definition delete (t : Task) : M unit := fun st =>
  (Ok tt,
   mkDb (List.filter (fun r => negb (id_matches (str_of_id (id t)) r)) (rows st))
        (seq st)).

(** ** Vocabulary of the statements about [see_list] *)

(** [t.status == s] *)
Definition has_status (s : string) (t : Task) : bool :=
  String.eqb (status t) s.

(** [a] has a smaller id than [b]. *)
Definition id_before (a b : Task) : Prop :=
  exists x y, id a = Some x /\ id b = Some y /\ (x < y)%Z.

(** The key of [b] is not smaller than the key of [a]. *)
Definition key_le (a b : Task) : Prop :=
  key_lt (sort_key b) (sort_key a) = Ok false.

(** The first two components of the key as one number: 0 for an active
    task, 1 for an open one, 3 for a completed one. *)
Definition key_rank (t : Task) : Z :=
  ((if String.eqb (status t) "completed" then 2 else 0)
   + (if negb (String.eqb (status t) "active") then 1 else 0))%Z.

(** The same number for a status. *)
Definition status_rank (s : string) : Z :=
  ((if String.eqb s "completed" then 2 else 0)
   + (if negb (String.eqb s "active") then 1 else 0))%Z.

(** A task that carries an id, as every fetched task does. *)
Definition saved (t : Task) : Prop := exists z, id t = Some z.

(** The three statuses of a task. *)
Definition status_options : list string := ["open"; "active"; "completed"].

(** ** Vocabulary of the statements about [edit] *)

(** [r'] is [r] after [t.edit()]: the id and the date stay, a record with
    another id stays whole, a record with the id of [t] takes its title,
    description, tag and status from [t]. *)
Definition edited (t : Task) (r r' : row) : Prop :=
  r_id r' = r_id r
  /\ r_date_added r' = r_date_added r
  /\ (Some (r_id r) <> id t -> r' = r)
  /\ (Some (r_id r) = id t ->
      r_title r' = title t /\ r_description r' = description t
      /\ r_tag r' = tag t /\ r_status r' = status t).

(** ** Sample data *)

Definition sample_task : Task :=
  mkTask "Water the plants" None (Some "home")
         (DateObj (Datetime 2024 3 9 7 5 0 0)) "open" None.

Definition sample_db : db :=
  mkDb [mkRow "Fix bug" None None "2024-01-01 10:00:00" "completed" 1;
        mkRow "Write docs" (Some "README") None "2024-01-02 10:00:00" "active" 2;
        mkRow "Ship" None (Some "rel") "2024-01-03 10:00:00" "open" 3] 3.

(** ** The rest of the module: [Task.__str__] and the commands *)

Definition ret {A : Type} (a : A) : M A := fun st => (Ok a, st).

Definition lift {A : Type} (r : result A) : M A := fun st => (r, st).

Definition bindM {A B : Type} (m : M A) (k : A -> M B) : M B := fun st =>
  match m st with
  | (Ok a, st') => k a st'
  | (Raise e, st') => (Raise e, st')
  end.

Notation "x <~ m ;; k" := (bindM m (fun x => k))
  (at level 100, m at next level, right associativity).

(** [a or b] where [a] is a string or [None] and [b] a string. *)
Definition or_str (a : option string) (b : string) : string :=
  match a with
  | Some (String c r) => String c r
  | _ => b
  end.

(** [a or b] where both are a string or [None]. *)
Definition or_opt (a b : option string) : option string :=
  match a with
  | Some (String _ _) => a
  | _ => b
  end.

(** ["{:40.40}".format(s)]: at most 40 characters, padded to 40. *)
Definition format_40_40 (s : string) : string :=
  ljust 40 (String.substring 0 40 s).

(** [Task.__str__]; [today] is [datetime.date.today().strftime("%d/%m/%Y")]. *)
Definition Task_str (today : string) (self : Task) : string :=
  "#" +:+ ljust 2 (str_of_id (id self)) +:+ " "
  +:+ format_40_40 (title self) +:+ " ("
  +:+ or_str (tag self) today +:+ ")".

(** The text of a date as [str.join] takes it: a [datetime] is no string. *)
Definition date_text (v : date_value) : result string :=
  match v with
  | DateText s => Ok s
  | DateObj _ => Raise TypeError
  end.

(** [sep.join(l)] *)
Fixpoint join (sep : string) (l : list string) : string :=
  match l with
  | [] => ""
  | [x] => x
  | x :: xs => x +:+ sep +:+ join sep xs
  end.

(** The commands return what they print, a line an element; the colour
    of the print is left out. *)

(** [add_todo]; [capitalize] is [str.capitalize] and [now] the value of
    [datetime.datetime.now()]. *)
Definition add_todo (capitalize : string -> string) (now : datetime)
  (title_ : string) (desc tag_ : option string) (fixup : bool)
  : M (list string) :=
  let task_ :=
    mkTask (if fixup then capitalize title_ else title_) desc tag_
           (DateObj now) "open" None in
  _ <~ add task_ ;;
  ret [title task_ +:+ " added."].

(** [view_todos] *)
Definition view_todos (today : string) (all : bool) : M (list string) :=
  l <~ see_list ;;
  ret (map (Task_str today)
           (if all then l
            else List.filter
                   (fun i => negb (String.eqb (status i) "completed")) l)).

(** [view_todo] *)
Definition view_todo (id_ : string) : M (list string) :=
  i <~ lift (int id_) ;;
  task_ <~ get i ;;
  d <~ lift (date_text (date_added task_)) ;;
  ret [join (String LF (String LF ""))
         [title task_; status task_; or_str (tag task_) "(No Tag)";
          or_str (description task_) "(No Description)"; d]].

(** [edit_todo] *)
Definition edit_todo (name desc tag_ status_ : option string) (id_ : string)
  : M (list string) :=
  i <~ lift (int id_) ;;
  task_ <~ get i ;;
  let task_ :=
    mkTask (or_str name (title task_)) (or_opt desc (description task_))
           (or_opt tag_ (tag task_)) (date_added task_)
           (or_str status_ (status task_)) (id task_) in
  _ <~ edit task_ ;;
  ret [title task_ +:+ " edited."].

(** [delete_todo]; [confirm] is the answer to [click.confirm]. *)
Definition delete_todo (confirm : string -> bool) (id_ : string)
  : M (list string) :=
  i <~ lift (int id_) ;;
  task_ <~ get i ;;
  if confirm ("Delete " +:+ title task_ +:+ "?")
  then
    _ <~ delete task_ ;;
    ret [title task_ +:+ " deleted."]
  else ret ["Nevermind."].

(** The task with another status: [task_.status = s]. *)
Definition with_status (s : string) (t : Task) : Task :=
  mkTask (title t) (description t) (tag t) (date_added t) s (id t).

(** [todo_done] *)
Definition todo_done (id_ : string) : M (list string) :=
  i <~ lift (int id_) ;;
  task_ <~ get i ;;
  let task_ := with_status "completed" task_ in
  _ <~ edit task_ ;;
  ret [title task_ +:+ " completed."].

(** [pick_todo] *)
Definition pick_todo (id_ : string) : M (list string) :=
  i <~ lift (int id_) ;;
  task_ <~ get i ;;
  let task_ := with_status "active" task_ in
  _ <~ edit task_ ;;
  ret [title task_ +:+ " active."].

(** [commit_todo]; [run cmd] is
    [subprocess.run(cmd, cwd=Path.cwd(), text=True, capture_output=True).stdout]. *)
Definition commit_todo (confirm : string -> bool) (today : string)
  (run : list string -> result string) (id_ : string) : M (list string) :=
  i <~ lift (int id_) ;;
  task_ <~ get i ;;
  if confirm ("Commit " +:+ title task_ +:+ "?")
  then
    let task_ := with_status "completed" task_ in
    _ <~ edit task_ ;;
    out <~ lift (run ["git"; "commit"; "-am";
                      "(" +:+ or_str (tag task_) today +:+ ") " +:+ title task_]) ;;
    ret [out]
  else ret ["Nevermind."].

(** ** Vocabulary of the statements about the store *)

(** The table as sqlite keeps it: the ids are distinct (PRIMARY KEY) and
    none is above the AUTOINCREMENT counter. *)
Definition well_formed (st : db) : Prop :=
  List.NoDup (map r_id (rows st))
  /\ Forall (fun r => (r_id r <= seq st)%Z) (rows st).

(** [t.status == "completed"] *)
Definition is_completed (t : Task) : bool := String.eqb (status t) "completed".


(** The table of [sample_db] in another order. *)
Definition sample_db_shuffled : db :=
  mkDb [mkRow "Ship" None (Some "rel") "2024-01-03 10:00:00" "open" 3;
        mkRow "Fix bug" None None "2024-01-01 10:00:00" "completed" 1;
        mkRow "Write docs" (Some "README") None "2024-01-02 10:00:00" "active" 2] 3.

End Todos.

(* ================================================================== *)
(** * code_garden/models.py *)
(* ================================================================== *)

Module Models.

(** ** What the module uses from outside *)

(** A file as [open] finds it: text, or something [open(...).read()]
    fails on (no permission, a directory, bytes that do not decode). *)
Inductive file : Type :=
| Text (stored : string)
| Unreadable.

(** The files, by path.  Opening a path for writing is taken to succeed:
    the directories on the way are not modelled. *)
Abbreviation files := (gmap string file).

(** [open(p).read()] and [open(p).readlines()] *)
Definition open_read (fs : files) (p : string) : result string :=
  match fs !! p with
  | Some (Text stored) => Ok (read stored)
  | Some Unreadable => Raise OSError
  | None => Raise FileNotFoundError
  end.

Definition open_readlines (fs : files) (p : string) : result (list string) :=
  match fs !! p with
  | Some (Text stored) => Ok (readlines stored)
  | Some Unreadable => Raise OSError
  | None => Raise FileNotFoundError
  end.

(** [a / b] on paths: an absolute right operand replaces the left one. *)
Definition joinpath (a b : string) : string :=
  if startswith b "/" then b else a +:+ "/" +:+ b.

(** [p.name]: the last component of a path, [""] when there is none. *)
Definition path_name (p : string) : string :=
  List.last
    (List.filter (fun c => truthy c && negb (String.eqb c "."))
                 (split "/"%char p))
    "".

Section View.
(** The structured view of one to-do, as class [Todo] (imported from
    [code_garden.todos], which has no such class in this revision)
    would produce it. *)
Variable todo_view : Type.

Record branch_view : Type := mkBranchView {
  bv_repository : string;
  bv_name : string;
  bv_compare_with_master : nat
}.

Record log_view : Type := mkLogView {
  lv_repository : string;
  lv_name : string;
  lv_timestamp : string;
  lv_abbrev_hash : string
}.

Record diff_view : Type := mkDiffView {
  dv_repository : string;
  dv_name : string;
  dv_path : string;
  dv_type_ : string;
  dv_color : option string
}.

Record ignore_view : Type := mkIgnoreView {
  iv_repository : string;
  iv_name : string
}.

(** The dict that [Repository.to_dict] builds. *)
Record repository_view : Type := mkRepositoryView {
  rv_name : string;
  rv_path : string;
  rv_branches : list branch_view;
  rv_current_branch : branch_view;
  rv_remote_url : option string;
  rv_log : list log_view;
  rv_todos : list todo_view;
  rv_diffs : list diff_view;
  rv_readme : gmap string string;
  rv_ignored : list ignore_view
}.

(** The collaborators of the module:
    - [HOME_DIR]: [config.HOME_DIR];
    - [run cwd cmd]: [subprocess.run(cmd, cwd=cwd, text=True,
      capture_output=True).stdout], which raises when the directory or
      the program is missing;
    - [markdown]: [markdown.markdown];
    - [fromtimestamp]: [datetime.datetime.fromtimestamp], in the local
      time zone, raising out of range;
    - [strftime]: [timestamp.strftime("%B %-d, %Y @ %-I:%M %p")];
    - [todos name]: [[i.to_dict() for i in Todo.see_list(name)]];
    - [json_dump]: the text [json.dump(view, f, indent=4)] writes. *)
Record env : Type := mkEnv {
  HOME_DIR : string;
  run : string -> list string -> result string;
  markdown : string -> string;
  fromtimestamp : Z -> result datetime;
  strftime : datetime -> string;
  todos : string -> result (list todo_view);
  json_dump : repository_view -> string
}.
End View.

Arguments HOME_DIR {todo_view} e.
Arguments run {todo_view} e cwd cmd.
Arguments markdown {todo_view} e raw.
Arguments fromtimestamp {todo_view} e seconds.
Arguments strftime {todo_view} e d.
Arguments todos {todo_view} e name.
Arguments json_dump {todo_view} e view.
Arguments mkRepositoryView {todo_view}.
Arguments rv_current_branch {todo_view} r.
Arguments rv_readme {todo_view} r.

(** ** The classes *)

(** [Branch(repository, name)] *)
Record Branch : Type := mkBranch {
  branch_repository : string;
  branch_name : string
}.

(** [LogItem(repository, name, timestamp, abbrev_hash)] *)
Record LogItem : Type := mkLogItem {
  log_repository : string;
  log_name : string;
  log_timestamp : datetime;
  log_abbrev_hash : string
}.

(** [DiffItem(repository, name, type_)] *)
Record DiffItem : Type := mkDiffItem {
  diff_repository : string;
  diff_name : string;
  diff_type_ : string
}.

(** [IgnoreItem(repository, name)] *)
Record IgnoreItem : Type := mkIgnoreItem {
  ignore_repository : string;
  ignore_name : string
}.

Section Repository.
Context {todo_view : Type}.
Variable E : env todo_view.

(** A [Repository] is its [name]. *)

(** [Repository.path] *)
Definition Repository_path (name : string) : string :=
  joinpath (HOME_DIR E) name.

(** [Repository.run_command] *)
Definition Repository_run_command (name : string) (cmd : list string)
  : result string :=
  run E (Repository_path name) cmd.

(** [Repository.branches] *)
Definition Repository_branches (name : string) : result (list Branch) :=
  out <- Repository_run_command name ["git"; "branch"] ;;
  Ok (map (fun i => mkBranch name (strip i))
          (List.filter (fun i => truthy (strip i)) (split LF out))).

(** [Repository.current_branch]: [None] when the loop finds no line. *)
Definition Repository_current_branch (name : string)
  : result (option Branch) :=
  out <- Repository_run_command name ["git"; "branch"] ;;
  Ok (option_map (fun i => mkBranch name (replace i "* " ""))
                 (List.find (fun i => startswith i "* ") (split LF out))).

(** The format that [Repository.log] asks for: subject, author time and
    abbreviated hash, separated by tabs. *)
Definition log_format : string :=
  "--pretty=format:%s" +:+ String TAB "%at" +:+ String TAB "%h".

(** The body of the loop of [Repository.log] on one line. *)
Definition log_line (name i : string) : result LogItem :=
  let fields := split TAB (strip i) in
  if (length fields =? 2)%nat
  then
    h <- index fields 0 ;;
    Ok (mkLogItem name "[No Commit Message]" datetime_min h)
  else
    s <- index fields 0 ;;
    at_ <- index (split TAB i) 1 ;;
    seconds <- int at_ ;;
    t <- fromtimestamp E seconds ;;
    h <- index fields 2 ;;
    Ok (mkLogItem name s t h).

(** [Repository.log] *)
Definition Repository_log (name : string) : list LogItem :=
  try_except
    (out <- Repository_run_command name
              ["git"; "log"; "--oneline"; "-5"; log_format] ;;
     mapM (log_line name) (split LF out))
    [].

(** [Repository.todos] with [to_dict] on each. *)
Definition Repository_todos (name : string) : result (list todo_view) :=
  todos E name.

(** [Repository.diffs] *)
Definition Repository_diffs (name : string) : result (list DiffItem) :=
  out <- Repository_run_command name ["git"; "status"; "--short"] ;;
  mapM (fun i =>
          p <- index (split_ws (strip i)) 1 ;;
          t <- index (split_ws (strip i)) 0 ;;
          Ok (mkDiffItem name
                (path_name (joinpath (Repository_path name) p)) t))
       (List.filter (fun i => truthy (strip i)) (split LF out)).

(** [Repository.readme] *)
Definition Repository_readme (fs : files) (name : string)
  : gmap string string :=
  try_except
    (raw <- open_read fs (joinpath (Repository_path name) "README.md") ;;
     Ok (<["txt" := raw]> (<["md" := markdown E raw]> ∅)))
    ∅.

(** [Repository.ignored] *)
Definition Repository_ignored (fs : files) (name : string)
  : list IgnoreItem :=
  try_except
    (ls <- open_readlines fs
             (joinpath (Repository_path name) ".gitignore") ;;
     Ok (map (fun i => mkIgnoreItem name (strip i))
             (List.filter (fun i => truthy (strip i)) ls)))
    [].

(** [Repository.remote_url] *)
Definition Repository_remote_url (name : string)
  : result (option string) :=
  test <- Repository_run_command name ["git"; "remote"; "-v"] ;;
  if truthy test
  then
    out <- Repository_run_command name ["git"; "remote"; "-v"] ;;
    first <- index (split LF out) 0 ;;
    url <- index (split_ws first) 1 ;;
    Ok (Some url)
  else Ok None.

(** The revision range that [Branch.compare_with_master] passes to
    [git log]. *)
Definition compare_range (b : Branch) : string :=
  (if negb (String.eqb (branch_name b) "master")
   then "master" else "origin/master")
  +:+ "..." +:+ branch_name b.

(** [Branch.compare_with_master] *)
Definition Branch_compare_with_master (b : Branch) : result nat :=
  comparison <- Repository_run_command (branch_repository b)
                  ["git"; "log"; compare_range b; "--oneline"] ;;
  Ok (length (map strip (List.filter truthy (split LF comparison)))).

(** [Branch.to_dict] *)
Definition Branch_to_dict (b : Branch) : result branch_view :=
  c <- Branch_compare_with_master b ;;
  Ok (mkBranchView (branch_repository b) (branch_name b) c).

(** [LogItem.to_dict] *)
Definition LogItem_to_dict (l : LogItem) : log_view :=
  mkLogView (log_repository l) (log_name l)
            (strftime E (log_timestamp l)) (log_abbrev_hash l).

(** [DiffItem.path] *)
Definition DiffItem_path (d : DiffItem) : string :=
  joinpath (Repository_path (diff_repository d)) (diff_name d).

(** [DiffItem.color] *)
Definition DiffItem_color (d : DiffItem) : option string :=
  let choices : gmap string string :=
    <["M" := "orange"]> (<["A" := "green"]> (<["D" := "red"]>
      (<["R" := "yellow"]> (<["?" := "green"]> ∅)))) in
  choices !! diff_type_ d.

(** [DiffItem.to_dict] *)
Definition DiffItem_to_dict (d : DiffItem) : diff_view :=
  mkDiffView (diff_repository d) (diff_name d) (DiffItem_path d)
             (diff_type_ d) (DiffItem_color d).

(** [IgnoreItem.to_dict] *)
Definition IgnoreItem_to_dict (i : IgnoreItem) : ignore_view :=
  mkIgnoreView (ignore_repository i) (ignore_name i).

(** What the loop [for i in ignores_: f.write(f"{i.name}\n")] leaves in
    a file opened with ["w"]. *)
Definition write_ignores (ignores_ : list IgnoreItem) : string :=
  fold_right (fun i rest => (ignore_name i +:+ String LF "") +:+ rest)
             "" ignores_.

(** [IgnoreItem.create] *)
Definition IgnoreItem_create (fs : files) (self : IgnoreItem)
  : result unit * files :=
  let ignores_ :=
    Repository_ignored fs (ignore_repository self) ++ [self] in
  (Ok tt,
   <[joinpath (Repository_path (ignore_repository self)) ".gitignore"
     := Text (write_ignores ignores_)]> fs).

(** [del l[i]], with Python's negative indices. *)
Definition del {A : Type} (l : list A) (i : Z) : result (list A) :=
  let n := Z.of_nat (length l) in
  let k := if (i <? 0)%Z then (i + n)%Z else i in
  if ((0 <=? k) && (k <? n))%Z
  then Ok (take (Z.to_nat k) l ++ drop (S (Z.to_nat k)) l)
  else Raise IndexError.

(** [IgnoreItem.delete] *)
Definition IgnoreItem_delete (fs : files) (repository : string) (id : Z)
  : result unit * files :=
  match del (Repository_ignored fs repository) id with
  | Ok ignores_ =>
      (Ok tt,
       <[joinpath (Repository_path repository) ".gitignore"
         := Text (write_ignores ignores_)]> fs)
  | Raise e => (Raise e, fs)
  end.

(** [Repository.to_dict]: the keyword arguments are evaluated in the
    order they are written. *)
Definition Repository_to_dict (fs : files) (name : string)
  : result (repository_view todo_view) :=
  bs <- Repository_branches name ;;
  branches <- mapM Branch_to_dict bs ;;
  cb <- Repository_current_branch name ;;
  current_branch <-
    match cb with
    | Some b => Branch_to_dict b
    | None => Raise AttributeError
    end ;;
  remote_url <- Repository_remote_url name ;;
  let log := map LogItem_to_dict (Repository_log name) in
  todos_ <- Repository_todos name ;;
  ds <- Repository_diffs name ;;
  let diffs := map DiffItem_to_dict ds in
  let readme := Repository_readme fs name in
  let ignored := map IgnoreItem_to_dict (Repository_ignored fs name) in
  Ok (mkRepositoryView name (Repository_path name) branches current_branch
        remote_url log todos_ diffs readme ignored).

End Repository.

(** ** Vocabulary of the statements *)


(** [c in s] for one character. *)
Fixpoint has_char (c : ascii) (s : string) : bool :=
  match s with
  | EmptyString => false
  | String x r => Ascii.eqb x c || has_char c r
  end.

(** A name that a line of the ignore file holds as it is: not empty, no
    whitespace at either end, no line break inside. *)
Definition clean_name (n : string) : bool :=
  truthy n && String.eqb (strip n) n
  && negb (has_char LF n) && negb (has_char CR n).

(** The stored text of an ignore file with the given names, one a line. *)
Definition ignore_file (repository : string) (names : list string) : string :=
  write_ignores (map (mkIgnoreItem repository) names).

(** A text of the given lines, each ended by a line feed. *)
Definition unlines (ls : list string) : string :=
  fold_right (fun l rest => l +:+ String LF rest) "" ls.





(** ** Sample data *)

(** A home directory with four repositories.  In [garden], [master] and
    [dev] have one commit each that the other lacks; [seed] answers the
    log with a line that carries a hash only and lists no current branch;
    the last commit of [bulb] has an empty subject; in [plot] every
    command prints nothing. *)
Definition sample_run (cwd : string) (cmd : list string) : result string :=
  if String.eqb cwd "/home/u/garden" then
    if decide (cmd = ["git"; "branch"]) then
      Ok ("  dev" +:+ String LF ("* master" +:+ String LF ""))
    else if decide (cmd = ["git"; "log"; "master...dev"; "--oneline"]) then
      Ok ("d1d1d1d Add beds" +:+ String LF ("a0a0a0a Fix gate" +:+ String LF ""))
    else if decide (cmd = ["git"; "log"; "master..dev"; "--oneline"]) then
      Ok ("d1d1d1d Add beds" +:+ String LF "")
    else if decide (cmd = ["git"; "log"; "--oneline"; "-5"; log_format]) then
      Ok ("Fix bug" +:+ String TAB ("1700000000" +:+ String TAB "a1b2c3d"))
    else if decide (cmd = ["git"; "status"; "--short"]) then
      Ok (" M path/to/file.txt" +:+ String LF "")
    else Ok ""
  else if String.eqb cwd "/home/u/seed" then
    if decide (cmd = ["git"; "log"; "--oneline"; "-5"; log_format]) then
      Ok "abc1234"
    else Ok ""
  else if String.eqb cwd "/home/u/bulb" then
    if decide (cmd = ["git"; "log"; "--oneline"; "-5"; log_format]) then
      Ok (String TAB ("1700000000" +:+ String TAB "abc1234")
          +:+ String LF ("Fix bug" +:+ String TAB ("1700000000" +:+ String TAB "a1b2c3d")))
    else Ok ""
  else if String.eqb cwd "/home/u/plot" then Ok ""
  else Raise FileNotFoundError.

Definition sample_env : env unit :=
  mkEnv unit "/home/u" sample_run
        (fun raw => "<p>" +:+ raw +:+ "</p>")
        (fun seconds =>
           if (seconds =? 1700000000)%Z
           then Ok (Datetime 2023 11 14 22 13 20 0)
           else Raise OverflowError)
        (fun d => isoformat d " ")
        (fun _ => Ok [])
        (fun view => "{}").

Definition sample_files : files :=
  <["/home/u/garden/README.md" := Text "# Garden"]>
    (<["/home/u/garden/.gitignore" :=
         Text ("build" +:+ String LF ("*.pyc" +:+ String LF ""))]> ∅).






(** ** The rest of the module that reads or writes what is modelled *)


(** [Repository.__str__]: the parts of the f-string are evaluated from
    left to right. *)
Definition Repository_str {todo_view : Type} (E : env todo_view)
  (name : string) : result string :=
  cb <- Repository_current_branch E name ;;
  shown <- match cb with
           | Some b => Ok (branch_name b)
           | None => Raise AttributeError
           end ;;
  cb' <- Repository_current_branch E name ;;
  ahead <- match cb' with
           | Some b => Branch_compare_with_master E b
           | None => Raise AttributeError
           end ;;
  last <- index (Repository_log E name) 0 ;;
  Ok (ljust 20 name +:+ " (current branch: " +:+ shown +:+ " (+"
      +:+ str_of_int (Z.of_nat ahead) +:+ "), last updated: "
      +:+ strftime E (log_timestamp last) +:+ ")").

End Models.

(* ================================================================== *)
(** * Properties *)
(* ================================================================== *)

(** ** The built-ins on sample inputs *)

Example strip_ex: strip (String TAB " a b  ") = "a b".
Proof. reflexivity. Qed.
Example split_ex : split TAB (String "a" (String TAB (String TAB "b"))) = ["a"; ""; "b"].
Proof. reflexivity. Qed.
Example split_ws_ex : split_ws "  M  path/to  x " = ["M"; "path/to"; "x"].
Proof. reflexivity. Qed.
Example replace_ex : replace "* a* b" "* " "" = "ab".
Proof. reflexivity. Qed.
Example replace_ex2 : replace "abc" "" "-" = "-a-b-c-".
Proof. reflexivity. Qed.
Example readlines_ex :
  readlines (String "a" (String CR (String LF (String "b" (String CR "c")))))
  = [String "a" (String LF ""); String "b" (String LF ""); "c"].
Proof. reflexivity. Qed.
Example int_ex : int " -1_000 " = Ok (-1000)%Z.
Proof. reflexivity. Qed.
Example int_ex2 : int "1__0" = Raise ValueError.
Proof. reflexivity. Qed.
Example str_ex : str_of_int (-120) = "-120".
Proof. reflexivity. Qed.
Example isoformat_ex :
  isoformat (Datetime 2024 3 9 7 5 0 0) " " = "2024-03-09 07:05:00".
Proof. reflexivity. Qed.
Example isoformat_ex2 :
  isoformat (Datetime 2024 3 9 7 5 0 1500) " " = "2024-03-09 07:05:00.001500".
Proof. reflexivity. Qed.

(** ** Stable sorting *)

Section SortedFacts.
Context {A K : Type}.
Variable lt : K -> K -> result bool.
Variable key : A -> K.
Variable P : A -> Prop.

Let le (x y : A) : Prop := lt (key y) (key x) = Ok false.

Hypothesis lt_defined :
  forall x y, P x -> P y -> exists b, lt (key x) (key y) = Ok b.
Hypothesis lt_asym :
  forall x y, P x -> P y -> lt (key x) (key y) = Ok true -> le x y.
Hypothesis le_trans :
  forall x y z, P x -> P y -> P z -> le x y -> le y z -> le x z.

Lemma insert_sorted (x : A) (l : list A) :
  P x -> Forall P l -> StronglySorted le l ->
  exists r, insert lt key x l = Ok r /\ Permutation r (x :: l)
            /\ StronglySorted le r.
Proof.
  intros Px. induction l as [|y ys IH]; intros Pl Hs.
  - exists [x]. repeat split; auto. repeat constructor.
  - inversion Pl as [|? ? Py Pys]; subst.
    inversion Hs as [|? ? Hys Hy]; subst.
    destruct (lt_defined y x Py Px) as [b Hb].
    cbn [insert]. rewrite Hb. cbn [bind]. destruct b.
    + destruct (IH Pys Hys) as (r & Hr & Hperm & Hsr).
      rewrite Hr. cbn [bind]. exists (y :: r). split; [reflexivity|]. split.
      * rewrite Hperm. apply perm_swap.
      * constructor; [exact Hsr|].
        eapply Permutation_Forall; [symmetry; exact Hperm|].
        constructor; [|exact Hy]. apply lt_asym; assumption.
    + exists (x :: y :: ys). split; [reflexivity|]. split; [reflexivity|].
      constructor; [exact Hs|]. constructor; [exact Hb|].
      rewrite List.Forall_forall in Hy, Pys. rewrite List.Forall_forall. intros z Hz.
      apply (le_trans x y z); auto.
Qed.

Lemma sorted_sorted (l : list A) :
  Forall P l ->
  exists r, sorted lt key l = Ok r /\ Permutation r l /\ StronglySorted le r.
Proof.
  induction l as [|x xs IH]; intros Pl.
  - exists []. repeat split; auto. constructor.
  - inversion Pl as [|? ? Px Pxs]; subst.
    destruct (IH Pxs) as (s & Hs & Hperm & Hss).
    cbn [sorted]. rewrite Hs. cbn [bind].
    destruct (insert_sorted x s Px) as (r & Hr & Hperm' & Hsr); auto.
    { eapply Permutation_Forall; [symmetry; exact Hperm|exact Pxs]. }
    exists r. split; [exact Hr|]. split; [|exact Hsr].
    rewrite Hperm'. constructor. exact Hperm.
Qed.
End SortedFacts.

(** ** The task store *)

Module TodosFacts.
Import Todos.

(** *** Ids as query parameters *)

Lemma sqlite_int_of_str (z : Z) : sqlite_int_of_text (str_of_int z) = Some z.
Proof.
  unfold sqlite_int_of_text, str_of_int.
  rewrite NilZero.isi.
  - cbn [option_map]. f_equal. apply DecimalZ.of_to.
  - destruct z; cbn; try discriminate.
    intros [= H]. exact (DecimalPos.Unsigned.to_uint_nonnil _ H).
  - destruct z; cbn; try discriminate.
    intros [= H]. exact (DecimalPos.Unsigned.to_uint_nonnil _ H).
Qed.

Lemma id_matches_str (i : Z) (r : row) :
  id_matches (str_of_int i) r = (r_id r =? i)%Z.
Proof. unfold id_matches. now rewrite sqlite_int_of_str. Qed.

Lemma id_matches_id (o : option Z) (r : row) :
  id_matches (str_of_id o) r = true <-> Some (r_id r) = o.
Proof.
  destruct o as [z|]; cbn [str_of_id].
  - rewrite id_matches_str, Z.eqb_eq. split; congruence.
  - split; [discriminate|discriminate].
Qed.

Lemma max_rowid_ge (rs : list row) (r : row) :
  In r rs -> (r_id r <= max_rowid rs)%Z.
Proof.
  unfold max_rowid.
  induction rs as [|a rs IH]; cbn [fold_right In]; [tauto|].
  intros [->|H]; [lia|]. specialize (IH H). lia.
Qed.

Lemma find_none_iff {A : Type} (f : A -> bool) (l : list A) :
  (forall x, In x l -> f x = false) -> List.find f l = None.
Proof.
  induction l as [|a l IH]; cbn; [reflexivity|].
  intros H. rewrite (H a (or_introl eq_refl)). apply IH. auto.
Qed.


(** *** Adding and reading back *)



Example add_then_get_sample :
  fst (get 4 (snd (add sample_task sample_db)))
  = Ok (mkTask "Water the plants" None (Some "home")
               (DateText "2024-03-09 07:05:00") "open" (Some 4%Z)).
Proof. reflexivity. Qed.

(** When the ids are used up the INSERT fails and nothing is stored. *)
Lemma add_full (t : Task) (st : db) :
  (MAX_ROWID < next_rowid st)%Z -> add t st = (Raise OperationalError, st).
Proof.
  intros H. unfold add. apply Z.leb_gt in H. now rewrite H.
Qed.

(** *** Reading an id that is not there *)

(** C6. [Task.get] with an id that no stored record has raises (a
    [TypeError], from subscripting the [None] that [fetchone] returned)
    and leaves the store as it was. *)
Theorem get_unknown_id (i : Z) (st : db) :
  (forall r, In r (rows st) -> r_id r <> i) ->
  get i st = (Raise TypeError, st).
Proof.
  intros H. unfold get. rewrite find_none_iff; [reflexivity|].
  intros r Hr. rewrite id_matches_str. apply Z.eqb_neq. auto.
Qed.

Lemma get_unknown_id_witness : get 7 sample_db = (Raise TypeError, sample_db).
Proof.
  apply (get_unknown_id 7 sample_db).
  intros r Hr. cbn in Hr.
  destruct Hr as [<-|[<-|[<-|[]]]]; cbn; discriminate.
Defined.

(** [Task.get] never changes the store, found or not. *)
Lemma get_state (i : Z) (st : db) : snd (get i st) = st.
Proof. unfold get. now destruct (List.find _ _). Qed.

(** A stored id is found. *)
Lemma get_known_id (i : Z) (st : db) :
  (exists r, In r (rows st) /\ r_id r = i) ->
  exists r, In r (rows st) /\ r_id r = i /\ get i st = (Ok (task_of_row r), st).
Proof.
  intros (r & Hr & Hi). unfold get.
  destruct (List.find (id_matches (str_of_int i)) (rows st)) as [r'|] eqn:F.
  - apply find_some in F as [Hin Hm]. rewrite id_matches_str in Hm.
    apply Z.eqb_eq in Hm. eauto.
  - apply (find_none _ _ F) in Hr. rewrite id_matches_str in Hr.
    apply Z.eqb_neq in Hr. contradiction.
Qed.

(** *** Editing *)

Lemma edit_rows (t : Task) (rs : list row) :
  Forall2 (edited t)
    rs
    (map (fun r =>
            if id_matches (str_of_id (id t)) r
            then mkRow (title t) (description t) (tag t) (r_date_added r)
                       (status t) (r_id r)
            else r) rs).
Proof.
  induction rs as [|r rs IH]; cbn [map]; constructor; [|exact IH].
  destruct (id_matches (str_of_id (id t)) r) eqn:Hm.
  - apply id_matches_id in Hm. repeat split; cbn; congruence.
  - split; [reflexivity|]. split; [reflexivity|]. split; [reflexivity|].
    intros Hi. apply id_matches_id in Hi. congruence.
Qed.

Lemma find_map_id (t : Task) (j : Z) (rs : list row) :
  let upd := fun r =>
    if id_matches (str_of_id (id t)) r
    then mkRow (title t) (description t) (tag t) (r_date_added r)
               (status t) (r_id r)
    else r in
  List.find (id_matches (str_of_int j)) (map upd rs)
  = option_map upd (List.find (id_matches (str_of_int j)) rs).
Proof.
  intros upd. induction rs as [|r rs IH]; cbn [map List.find]; [reflexivity|].
  assert (Hid : r_id (upd r) = r_id r).
  { unfold upd. now destruct (id_matches (str_of_id (id t)) r). }
  rewrite !id_matches_str, Hid.
  destruct (r_id r =? j)%Z; [reflexivity|exact IH].
Qed.

(** C8. [Task.edit] rewrites the title, description, tag and status of
    the records whose id is the id of the task, and nothing else: every
    record keeps its id and its date, every record with another id is
    kept whole, no record is added or dropped, and the id counter stays.
    Read through [Task.get]: another id reads as before, and the id of
    the task reads the new fields with the old date. *)
Theorem edit_frame (t : Task) (st : db) :
  exists st',
    edit t st = (Ok tt, st')
    /\ seq st' = seq st
    /\ Forall2 (edited t) (rows st) (rows st')
    /\ (forall j, Some j <> id t -> fst (get j st') = fst (get j st))
    /\ (forall j t0, Some j = id t -> fst (get j st) = Ok t0 ->
        fst (get j st')
        = Ok (mkTask (title t) (description t) (tag t) (date_added t0)
                     (status t) (Some j))).
Proof.
  eexists. split; [reflexivity|]. cbn [seq rows].
  split; [reflexivity|]. split; [apply edit_rows|]. split.
  - intros j Hj. unfold get. cbn [rows]. rewrite find_map_id.
    destruct (List.find (id_matches (str_of_int j)) (rows st)) as [r|] eqn:F;
      cbn [option_map fst]; [|reflexivity].
    apply find_some in F as [_ Hm]. rewrite id_matches_str in Hm.
    apply Z.eqb_eq in Hm.
    destruct (id_matches (str_of_id (id t)) r) eqn:Hm'; [|reflexivity].
    apply id_matches_id in Hm'. congruence.
  - intros j t0 Hj. unfold get. cbn [rows]. rewrite find_map_id.
    destruct (List.find (id_matches (str_of_int j)) (rows st)) as [r|] eqn:F;
      cbn [option_map fst]; [|discriminate].
    apply find_some in F as [_ Hm]. rewrite id_matches_str in Hm.
    apply Z.eqb_eq in Hm. intros [= <-].
    assert (Hm' : id_matches (str_of_id (id t)) r = true).
    { apply id_matches_id. congruence. }
    rewrite Hm'. unfold task_of_row. cbn. now rewrite Hm.
Qed.

Example edit_sample :
  rows (snd (edit (mkTask "Write the docs" None (Some "doc")
                          (DateText "1999-12-31 00:00:00") "completed" (Some 2%Z))
                  sample_db))
  = [mkRow "Fix bug" None None "2024-01-01 10:00:00" "completed" 1;
     mkRow "Write the docs" None (Some "doc") "2024-01-02 10:00:00" "completed" 2;
     mkRow "Ship" None (Some "rel") "2024-01-03 10:00:00" "open" 3].
Proof. reflexivity. Qed.

(** A task that was never stored ([id] is [None]) edits nothing. *)
Lemma edit_unsaved (t : Task) (st : db) :
  id t = None -> rows (snd (edit t st)) = rows st.
Proof.
  intros H. unfold edit. cbn [snd rows]. rewrite H. cbn [str_of_id].
  induction (rows st) as [|r rs IH]; cbn [map]; [reflexivity|].
  now rewrite IH.
Qed.

(** *** Listing *)

Lemma key_lt_rank (a b : Task) (x y : Z) :
  id a = Some x -> id b = Some y ->
  key_lt (sort_key a) (sort_key b)
  = Ok ((key_rank a <? key_rank b)%Z
        || ((key_rank a =? key_rank b)%Z && (x <? y)%Z)).
Proof.
  intros Ha Hb. unfold key_lt, sort_key, key_rank. rewrite Ha, Hb.
  destruct (String.eqb (status a) "completed"),
           (String.eqb (status a) "active"),
           (String.eqb (status b) "completed"),
           (String.eqb (status b) "active"); cbn;
    destruct (Z.eqb_spec x y), (Z.ltb_spec x y); try lia; reflexivity.
Qed.

Lemma key_le_rank (a b : Task) (x y : Z) :
  id a = Some x -> id b = Some y ->
  key_le a b <->
  (key_rank a < key_rank b \/ (key_rank a = key_rank b /\ x <= y))%Z.
Proof.
  intros Ha Hb. unfold key_le. rewrite (key_lt_rank b a y x Hb Ha).
  destruct (Z.ltb_spec (key_rank b) (key_rank a)),
           (Z.eqb_spec (key_rank b) (key_rank a)),
           (Z.ltb_spec y x); cbn; split; intros H'; try lia;
    try reflexivity; try discriminate.
Qed.

Lemma key_lt_defined (a b : Task) :
  saved a -> saved b -> exists r, key_lt (sort_key a) (sort_key b) = Ok r.
Proof.
  intros [x Hx] [y Hy]. rewrite (key_lt_rank a b x y Hx Hy). eauto.
Qed.

Lemma key_lt_asym (a b : Task) :
  saved a -> saved b ->
  key_lt (sort_key a) (sort_key b) = Ok true -> key_le a b.
Proof.
  intros [x Hx] [y Hy]. rewrite (key_lt_rank a b x y Hx Hy).
  intros [= H]. apply (key_le_rank a b x y Hx Hy).
  destruct (Z.ltb_spec (key_rank a) (key_rank b)),
           (Z.eqb_spec (key_rank a) (key_rank b)),
           (Z.ltb_spec x y); cbn in H; try discriminate; lia.
Qed.

Lemma key_le_trans (a b c : Task) :
  saved a -> saved b -> saved c -> key_le a b -> key_le b c -> key_le a c.
Proof.
  intros [x Hx] [y Hy] [z Hz].
  rewrite (key_le_rank a b x y Hx Hy), (key_le_rank b c y z Hy Hz),
          (key_le_rank a c x z Hx Hz). lia.
Qed.

Lemma key_rank_status (t : Task) : key_rank t = status_rank (status t).
Proof. reflexivity. Qed.

Lemma has_status_rank (s : string) (t : Task) :
  has_status s t = true -> key_rank t = status_rank s.
Proof.
  unfold has_status. intros H. apply String.eqb_eq in H.
  now rewrite key_rank_status, H.
Qed.

Lemma filter_lower_nil (a : Task) (s : string) (l : list Task) :
  saved a -> Forall saved l -> Forall (key_le a) l ->
  (status_rank s < key_rank a)%Z ->
  List.filter (has_status s) l = [].
Proof.
  intros [x Hx] Hl Hle Hlt.
  induction l as [|b l IH]; cbn [List.filter]; [reflexivity|].
  inversion Hl as [|? ? [y Hy] Hl']; subst.
  inversion Hle as [|? ? Hab Hle']; subst.
  destruct (has_status s b) eqn:Hs; [|auto].
  apply has_status_rank in Hs.
  apply (key_le_rank a b x y Hx Hy) in Hab. lia.
Qed.

Lemma grouped (l : list Task) :
  Forall saved l ->
  Forall (fun t => In (status t) status_options) l ->
  StronglySorted key_le l ->
  l = List.filter (has_status "active") l
      ++ List.filter (has_status "open") l
      ++ List.filter (has_status "completed") l.
Proof.
  intros Hsaved Hst Hsorted.
  induction Hsorted as [|a l Hsorted IH Hle]; [reflexivity|].
  inversion Hsaved as [|? ? Ha Hl]; subst.
  inversion Hst as [|? ? Hsa Hsl]; subst.
  specialize (IH Hl Hsl).
  cbn [List.filter].
  assert (Hrank := key_rank_status a).
  assert (Hflags : forall s, has_status s a = String.eqb (status a) s)
    by reflexivity.
  rewrite !Hflags.
  destruct Hsa as [Hs|[Hs|[Hs|[]]]]; rewrite <- Hs in *;
    cbn [String.eqb Ascii.eqb Bool.eqb].
  - assert (Hact : List.filter (has_status "active") l = []).
    { apply (filter_lower_nil a); auto. rewrite Hrank. reflexivity. }
    rewrite Hact in *. cbn [app] in *. now f_equal.
  - cbn [app]. now f_equal.
  - assert (Hact : List.filter (has_status "active") l = []).
    { apply (filter_lower_nil a); auto. rewrite Hrank. reflexivity. }
    assert (Hopen : List.filter (has_status "open") l = []).
    { apply (filter_lower_nil a); auto. rewrite Hrank. reflexivity. }
    rewrite Hact, Hopen in *. cbn [app] in *. now f_equal.
Qed.

Lemma group_ascending (s : string) (l : list Task) :
  Forall saved l -> List.NoDup (map id l) -> StronglySorted key_le l ->
  StronglySorted id_before (List.filter (has_status s) l).
Proof.
  intros Hsaved Hnd Hsorted.
  induction Hsorted as [|a l Hsorted IH Hle]; [constructor|].
  inversion Hsaved as [|? ? [x Hx] Hl]; subst.
  cbn [map] in Hnd. inversion Hnd as [|? ? Hnotin Hnd']; subst.
  specialize (IH Hl Hnd').
  cbn [List.filter]. destruct (has_status s a) eqn:Hsa; [|exact IH].
  constructor; [exact IH|].
  rewrite List.Forall_forall. intros b Hb. apply filter_In in Hb as [Hb Hsb].
  rewrite List.Forall_forall in Hl, Hle.
  destruct (Hl b Hb) as [y Hy].
  apply has_status_rank in Hsa, Hsb.
  pose proof (proj1 (key_le_rank a b x y Hx Hy) (Hle b Hb)) as Hab.
  assert (x <> y).
  { intros ->. apply Hnotin. rewrite Hx, <- Hy. now apply in_map. }
  exists x, y. repeat split; auto. lia.
Qed.

Lemma see_list_sorted_perm (st : db) :
  exists l,
    see_list st = (Ok l, st)
    /\ Permutation l (map task_of_row (rows st))
    /\ StronglySorted key_le l
    /\ Forall saved l.
Proof.
  assert (Hsaved : Forall saved (map task_of_row (rows st))).
  { rewrite List.Forall_forall. intros t Ht.
    apply in_map_iff in Ht as (r & <- & _). now exists (r_id r). }
  destruct (sorted_sorted key_lt sort_key saved key_lt_defined key_lt_asym
              key_le_trans _ Hsaved) as (l & Hl & Hperm & Hsorted).
  exists l. unfold see_list. rewrite Hl.
  split; [reflexivity|]. split; [exact Hperm|]. split; [exact Hsorted|].
  eapply Permutation_Forall; [symmetry; exact Hperm|exact Hsaved].
Qed.

Lemma NoDup_map_inj {A B : Type} (f : A -> B) (l : list A) (a b : A) :
  List.NoDup (map f l) -> In a l -> In b l -> f a = f b -> a = b.
Proof.
  induction l as [|x l IH]; cbn [map In]; [tauto|].
  intros Hnd. inversion Hnd as [|? ? Hnotin Hnd']; subst.
  intros [->|Ha] [->|Hb] Hf; auto.
  - exfalso. apply Hnotin. rewrite Hf. now apply in_map.
  - exfalso. apply Hnotin. rewrite <- Hf. now apply in_map.
Qed.

(** The list depends on the set of stored records only, not on the order
    in which the table yields them. *)
Lemma see_list_of_set (st1 st2 : db) :
  Permutation (rows st1) (rows st2) ->
  List.NoDup (map r_id (rows st1)) ->
  fst (see_list st1) = fst (see_list st2).
Proof.
  intros Hperm Hnd.
  destruct (see_list_sorted_perm st1) as (l1 & -> & Hp1 & Hs1 & _).
  destruct (see_list_sorted_perm st2) as (l2 & -> & Hp2 & Hs2 & _).
  cbn [fst]. f_equal.
  apply (StronglySorted_unique_strong key_le); auto.
  - intros x1 x2 Hx1 Hx2 H12 H21.
    apply list_elem_of_In in Hx1, Hx2.
    apply (Permutation_in _ Hp1), in_map_iff in Hx1 as (r1 & <- & Hr1).
    apply (Permutation_in _ Hp2), in_map_iff in Hx2 as (r2 & <- & Hr2).
    apply (Permutation_in _ (Permutation_sym Hperm)) in Hr2.
    apply (key_le_rank (task_of_row r1) (task_of_row r2) (r_id r1) (r_id r2)
             eq_refl eq_refl) in H12.
    apply (key_le_rank (task_of_row r2) (task_of_row r1) (r_id r2) (r_id r1)
             eq_refl eq_refl) in H21.
    f_equal. apply (NoDup_map_inj r_id (rows st1)); auto. lia.
  - rewrite Hp1, Hp2. now apply Permutation_map.
Qed.

(** C1. [Task.see_list] on a table whose statuses are open, active or
    completed and whose ids are distinct returns exactly the stored
    records, in ascending order of the key
    [(status == "completed", status != "active", id)]: the active tasks,
    then the open ones, then the completed ones, each group by ascending
    id; the store is not changed.  The records (1, completed),
    (2, active), (3, open) come back in the order 2, 3, 1. *)
Theorem see_list_order :
  (forall st : db,
     Forall (fun r => In (r_status r) status_options) (rows st) ->
     List.NoDup (map r_id (rows st)) ->
     exists l,
       see_list st = (Ok l, st)
       /\ Permutation l (map task_of_row (rows st))
       /\ StronglySorted key_le l
       /\ l = List.filter (has_status "active") l
              ++ List.filter (has_status "open") l
              ++ List.filter (has_status "completed") l
       /\ (forall s, StronglySorted id_before (List.filter (has_status s) l)))
  /\ (exists l, see_list sample_db = (Ok l, sample_db)
                /\ map id l = [Some 2; Some 3; Some 1]%Z).
Proof.
  split.
  - intros st Hst Hnd.
    destruct (see_list_sorted_perm st) as (l & Hl & Hperm & Hsorted & Hsaved').
    exists l.
    split; [exact Hl|]. split; [exact Hperm|]. split; [exact Hsorted|]. split.
    + apply grouped; auto.
      eapply Permutation_Forall; [symmetry; exact Hperm|].
      rewrite List.Forall_forall in Hst. rewrite List.Forall_forall.
      intros t Ht. apply in_map_iff in Ht as (r & <- & Hr).
      exact (Hst r Hr).
    + intros s. apply group_ascending; auto.
      eapply Permutation_NoDup; [apply Permutation_map; symmetry; exact Hperm|].
      rewrite map_map. cbn [task_of_row id].
      rewrite <- (map_map r_id Some).
      apply Finite.Injective_map_NoDup; [|exact Hnd].
      intros x y [= ->]. reflexivity.
  - eexists. split; reflexivity.
Qed.

Lemma see_list_order_witness :
  exists l,
    see_list sample_db = (Ok l, sample_db)
    /\ Permutation l (map task_of_row (rows sample_db))
    /\ StronglySorted key_le l
    /\ l = List.filter (has_status "active") l
           ++ List.filter (has_status "open") l
           ++ List.filter (has_status "completed") l
    /\ (forall s, StronglySorted id_before (List.filter (has_status s) l)).
Proof.
  apply (proj1 see_list_order sample_db).
  - repeat constructor; cbn; tauto.
  - repeat constructor; cbn; intuition discriminate.
Defined.

End TodosFacts.

(** ** Strings *)

Module PyFacts.






(** *** Lines *)

Lemma append_assoc (a b c : string) : (a +:+ b) +:+ c = a +:+ (b +:+ c).
Proof.
  induction a as [|x a IH]; [reflexivity|].
  change (String x ((a +:+ b) +:+ c) = String x (a +:+ (b +:+ c))).
  now rewrite IH.
Qed.

Lemma write_ignores_unlines (items : list Models.IgnoreItem) :
  Models.write_ignores items
  = Models.unlines (map Models.ignore_name items).
Proof.
  induction items as [|i items IH]; [reflexivity|].
  cbn [Models.write_ignores Models.unlines fold_right map].
  fold (Models.write_ignores items).
  fold (Models.unlines (map Models.ignore_name items)).
  now rewrite append_assoc, IH.
Qed.



Lemma keep_line (l rest : string) :
  Models.has_char LF l = false ->
  keep_lines (l +:+ String LF rest) = (l +:+ String LF "") :: keep_lines rest.
Proof.
  induction l as [|c l IH]; intros H.
  - reflexivity.
  - cbn [Models.has_char] in H. apply orb_false_iff in H as [Hc Hl].
    change (String c l +:+ String LF rest) with (String c (l +:+ String LF rest)).
    cbn [keep_lines]. rewrite Hc, (IH Hl). reflexivity.
Qed.

Lemma keep_lines_unlines (ls : list string) :
  Forall (fun l => Models.has_char LF l = false) ls ->
  keep_lines (Models.unlines ls) = map (fun l => l +:+ String LF "") ls.
Proof.
  induction 1 as [|l ls Hl _ IH]; [reflexivity|].
  cbn [Models.unlines fold_right map]. fold (Models.unlines ls).
  rewrite (keep_line l _ Hl), IH. reflexivity.
Qed.

Lemma has_char_append (c : ascii) (a b : string) :
  Models.has_char c (a +:+ b) = Models.has_char c a || Models.has_char c b.
Proof.
  induction a as [|x a IH]; [reflexivity|].
  change (String x a +:+ b) with (String x (a +:+ b)).
  cbn [Models.has_char]. rewrite IH. apply orb_assoc.
Qed.

Lemma universal_newlines_id (s : string) :
  Models.has_char CR s = false -> universal_newlines s = s.
Proof.
  induction s as [|c s IH]; [reflexivity|].
  cbn [Models.has_char universal_newlines]. intros H.
  apply orb_false_iff in H as [Hc Hs]. rewrite Hc. f_equal. auto.
Qed.

Lemma has_char_unlines (ls : list string) :
  Forall (fun l => Models.has_char CR l = false) ls ->
  Models.has_char CR (Models.unlines ls) = false.
Proof.
  induction 1 as [|l ls Hl _ IH]; [reflexivity|].
  cbn [Models.unlines fold_right]. fold (Models.unlines ls).
  rewrite has_char_append, Hl. cbn [orb Models.has_char]. exact IH.
Qed.

(** *** Stripping *)

Lemma rstrip_space (s : string) (c : ascii) :
  is_space c = true -> rstrip (s +:+ String c "") = rstrip s.
Proof.
  intros Hc. induction s as [|x s IH].
  - change ("" +:+ String c "") with (String c "").
    cbn [rstrip]. now rewrite Hc.
  - change (String x s +:+ String c "") with (String x (s +:+ String c "")).
    cbn [rstrip]. now rewrite IH.
Qed.

Lemma lstrip_space (s : string) (c : ascii) :
  is_space c = true ->
  lstrip (s +:+ String c "")
  = match lstrip s with
    | EmptyString => EmptyString
    | String x r => String x r +:+ String c ""
    end.
Proof.
  intros Hc. induction s as [|x s IH].
  - change ("" +:+ String c "") with (String c "").
    cbn [lstrip]. now rewrite Hc.
  - change (String x s +:+ String c "") with (String x (s +:+ String c "")).
    cbn [lstrip]. destruct (is_space x); [exact IH|reflexivity].
Qed.

Lemma strip_space (s : string) (c : ascii) :
  is_space c = true -> strip (s +:+ String c "") = strip s.
Proof.
  intros Hc. unfold strip. rewrite (lstrip_space s c Hc).
  destruct (lstrip s) as [|x r]; [reflexivity|].
  now apply rstrip_space.
Qed.

Lemma rstrip_idem (s : string) : rstrip (rstrip s) = rstrip s.
Proof.
  induction s as [|c r IH]; [reflexivity|].
  cbn [rstrip]. destruct (rstrip r) as [|x r'] eqn:Hr.
  - destruct (is_space c) eqn:Hc; [reflexivity|].
    cbn [rstrip]. now rewrite Hc.
  - cbn [rstrip]. cbn [rstrip] in IH. now rewrite IH.
Qed.

Lemma rstrip_head (c : ascii) (r : string) :
  is_space c = false -> exists r', rstrip (String c r) = String c r'.
Proof.
  intros Hc. cbn [rstrip]. destruct (rstrip r); [rewrite Hc|]; eauto.
Qed.

Lemma lstrip_head (s : string) :
  lstrip s = "" \/ exists c r, lstrip s = String c r /\ is_space c = false.
Proof.
  induction s as [|c r IH]; [now left|].
  cbn [lstrip]. destruct (is_space c) eqn:Hc; [exact IH|].
  right. eauto.
Qed.

Lemma strip_idem (s : string) : strip (strip s) = strip s.
Proof.
  unfold strip. destruct (lstrip_head s) as [->|(c & r & -> & Hc)].
  - reflexivity.
  - destruct (rstrip_head c r Hc) as [r' Hr'].
    rewrite Hr'. cbn [lstrip]. rewrite Hc, <- Hr'. apply rstrip_idem.
Qed.

Lemma has_char_lstrip (c : ascii) (s : string) :
  Models.has_char c (lstrip s) = true -> Models.has_char c s = true.
Proof.
  induction s as [|x r IH]; [auto|].
  cbn [lstrip]. destruct (is_space x); [|auto].
  intros H. cbn [Models.has_char]. rewrite (IH H). apply orb_true_r.
Qed.

Lemma has_char_rstrip (c : ascii) (s : string) :
  Models.has_char c (rstrip s) = true -> Models.has_char c s = true.
Proof.
  induction s as [|x r IH]; [auto|].
  cbn [rstrip]. destruct (rstrip r) as [|y r'].
  - destruct (is_space x); [discriminate|].
    cbn [Models.has_char]. rewrite orb_false_r. intros ->. reflexivity.
  - cbn [Models.has_char] in *. intros H.
    apply orb_true_iff in H as [->|H]; [reflexivity|].
    rewrite (IH H). apply orb_true_r.
Qed.

Lemma has_char_strip (c : ascii) (s : string) :
  Models.has_char c s = false -> Models.has_char c (strip s) = false.
Proof.
  intros H. destruct (Models.has_char c (strip s)) eqn:Hs; [|reflexivity].
  apply has_char_rstrip, has_char_lstrip in Hs. congruence.
Qed.

Lemma universal_newlines_no_CR (s : string) :
  Models.has_char CR (universal_newlines s) = false.
Proof.
  assert (H : forall n s, (String.length s <= n)%nat ->
                Models.has_char CR (universal_newlines s) = false).
  { clear s. induction n as [|n IH]; intros [|c s] Hn; try reflexivity.
    - cbn in Hn. lia.
    - cbn [String.length] in Hn. cbn [universal_newlines].
      destruct (Ascii.eqb c CR) eqn:Hc.
      + cbn [Models.has_char]. change (Ascii.eqb LF CR) with false.
        cbn [orb]. destruct s as [|c' s']; [reflexivity|].
        cbn [String.length] in Hn.
        destruct (Ascii.eqb c' LF); apply IH; cbn [String.length]; lia.
      + cbn [Models.has_char]. rewrite Hc. cbn [orb]. apply IH. lia. }
  now apply (H (String.length s)).
Qed.

Lemma keep_lines_chars (c : ascii) (s l : string) :
  In l (keep_lines s) -> Models.has_char c l = true ->
  Models.has_char c s = true.
Proof.
  revert l. induction s as [|x r IH]; intros l; cbn [keep_lines]; [intros []|].
  destruct (Ascii.eqb x LF) eqn:Hx.
  - intros [<-|Hin] Hl; cbn [Models.has_char] in *.
    + rewrite orb_false_r in Hl. now rewrite Hl.
    + rewrite (IH l Hin Hl). apply orb_true_r.
  - destruct (keep_lines r) as [|l0 ls] eqn:Hk.
    + intros [<-|[]] Hl. cbn [Models.has_char] in *.
      rewrite orb_false_r in Hl. now rewrite Hl.
    + intros [<-|Hin] Hl; cbn [Models.has_char] in *.
      * apply orb_true_iff in Hl as [->|Hl]; [reflexivity|].
        rewrite (IH l0 (or_introl eq_refl) Hl). apply orb_true_r.
      * rewrite (IH l (or_intror Hin) Hl). apply orb_true_r.
Qed.

Lemma keep_lines_body (s l : string) :
  In l (keep_lines s) ->
  exists body, Models.has_char LF body = false
               /\ (l = body \/ l = body +:+ String LF "").
Proof.
  revert l. induction s as [|x r IH]; intros l; cbn [keep_lines]; [intros []|].
  destruct (Ascii.eqb x LF) eqn:Hx.
  - intros [<-|Hin]; [|auto].
    apply Ascii.eqb_eq in Hx. subst x. exists "". split; [reflexivity|now right].
  - destruct (keep_lines r) as [|l0 ls] eqn:Hk.
    + intros [<-|[]]. exists (String x ""). split; [|now left].
      cbn [Models.has_char]. now rewrite Hx.
    + intros [<-|Hin]; [|apply IH; now right].
      destruct (IH l0 (or_introl eq_refl)) as (body & Hb & Hl).
      exists (String x body). split.
      * cbn [Models.has_char]. now rewrite Hx, Hb.
      * destruct Hl as [->| ->]; [now left|now right].
Qed.

End PyFacts.

(** ** The repository accessor *)

Module ModelsFacts.
Import Models PyFacts.

Section Repository.
Context {todo_view : Type}.
Variable E : env todo_view.

(** *** The current branch *)




(** *** The structured view *)

Lemma mapM_defined {A B : Type} (f : A -> result B) (l : list A) :
  Forall (fun x => exists y, f x = Ok y) l -> exists ys, mapM f l = Ok ys.
Proof.
  induction 1 as [|x l [y Hy] _ [ys IH]]; cbn [mapM].
  - now exists [].
  - rewrite Hy. cbn [bind]. rewrite IH. cbn [bind]. now eexists.
Qed.





(** *** The readme *)

(** C7. [readme] returns the empty dict when [README.md] is absent or
    cannot be read, and never raises; when the file can be read it
    returns the text as read under ["txt"] and its Markdown rendering
    under ["md"]. *)
Theorem readme_soft (fs : files) (name : string) :
  let p := joinpath (Repository_path E name) "README.md" in
  (fs !! p = None -> Repository_readme E fs name = ∅)
  /\ (fs !! p = Some Unreadable -> Repository_readme E fs name = ∅)
  /\ (forall e, open_read fs p = Raise e -> Repository_readme E fs name = ∅)
  /\ (forall stored, fs !! p = Some (Text stored) ->
      Repository_readme E fs name
      = <["txt" := read stored]> (<["md" := markdown E (read stored)]> ∅)
      /\ Repository_readme E fs name !! "txt" = Some (read stored)
      /\ Repository_readme E fs name !! "md"
         = Some (markdown E (read stored))).
Proof.
  intros p. unfold Repository_readme. fold p. unfold open_read.
  repeat split.
  - intros ->. reflexivity.
  - intros ->. reflexivity.
  - intros e. destruct (fs !! p) as [[stored|]|]; cbn; [discriminate|auto..].
  - rewrite H. reflexivity.
  - rewrite H. cbn [bind try_except]. apply lookup_insert_eq.
  - rewrite H. cbn [bind try_except].
    rewrite lookup_insert_ne by discriminate. apply lookup_insert_eq.
Qed.

(** *** The ignore file *)

Lemma clean_name_inv (n : string) :
  clean_name n = true ->
  truthy n = true /\ strip n = n
  /\ has_char LF n = false /\ has_char CR n = false.
Proof.
  unfold clean_name. intros H.
  apply andb_true_iff in H as [H Hcr]. apply andb_true_iff in H as [H Hlf].
  apply andb_true_iff in H as [Ht Hs]. apply String.eqb_eq in Hs.
  apply negb_true_iff in Hcr, Hlf. auto.
Qed.

Lemma readlines_ignore_file (name : string) (names : list string) :
  Forall (fun n => clean_name n = true) names ->
  readlines (ignore_file name names)
  = map (fun n => n +:+ String LF "") names.
Proof.
  intros Hclean. unfold readlines, ignore_file.
  rewrite write_ignores_unlines, map_map. cbn [ignore_name].
  rewrite map_id.
  rewrite universal_newlines_id.
  - apply keep_lines_unlines.
    eapply List.Forall_impl; [|exact Hclean]. intros n Hn.
    now apply clean_name_inv in Hn.
  - apply has_char_unlines.
    eapply List.Forall_impl; [|exact Hclean]. intros n Hn.
    now apply clean_name_inv in Hn.
Qed.

Lemma strip_written_lines (name : string) (names : list string) :
  Forall (fun n => clean_name n = true) names ->
  map (fun i => mkIgnoreItem name (strip i))
      (List.filter (fun i => truthy (strip i))
                   (map (fun n => n +:+ String LF "") names))
  = map (mkIgnoreItem name) names.
Proof.
  induction 1 as [|n names Hn _ IH]; [reflexivity|].
  apply clean_name_inv in Hn as (Ht & Hs & _ & _).
  cbn [map List.filter].
  rewrite (strip_space n LF eq_refl), Hs, Ht. cbn [map].
  now rewrite (strip_space n LF eq_refl), Hs, IH.
Qed.

Lemma ignored_written (fs : files) (name : string) (names : list string) :
  Forall (fun n => clean_name n = true) names ->
  fs !! joinpath (Repository_path E name) ".gitignore"
  = Some (Text (ignore_file name names)) ->
  Repository_ignored E fs name = map (mkIgnoreItem name) names.
Proof.
  intros Hclean Hfile.
  unfold Repository_ignored, open_readlines. rewrite Hfile.
  cbn [bind try_except].
  rewrite (readlines_ignore_file name names Hclean).
  now apply strip_written_lines.
Qed.

Lemma ignored_written_names (fs : files) (name : string) (names : list string) :
  Forall (fun n => clean_name n = true) names ->
  fs !! joinpath (Repository_path E name) ".gitignore"
  = Some (Text (ignore_file name names)) ->
  map ignore_name (Repository_ignored E fs name) = names.
Proof.
  intros Hclean Hfile.
  rewrite (ignored_written fs name names Hclean Hfile), map_map.
  cbn [ignore_name]. apply map_id.
Qed.

(** C4, as the code has it.  An ignore file written with one name a
    line reads back as the same names in the same order, when every
    name is clean: not empty, no whitespace at either end, no line
    break inside. *)
Theorem ignore_roundtrip (fs : files) (name : string) (names : list string) :
  Forall (fun n => clean_name n = true) names ->
  fs !! joinpath (Repository_path E name) ".gitignore"
  = Some (Text (ignore_file name names)) ->
  Repository_ignored E fs name = map (mkIgnoreItem name) names
  /\ map ignore_name (Repository_ignored E fs name) = names.
Proof.
  intros Hclean Hfile. split.
  - now apply ignored_written.
  - now apply ignored_written_names.
Qed.

(** [IgnoreItem.create] on such a file appends the name. *)
Lemma create_then_ignored (fs : files) (name n : string) (names : list string) :
  Forall (fun n => clean_name n = true) names ->
  clean_name n = true ->
  fs !! joinpath (Repository_path E name) ".gitignore"
  = Some (Text (ignore_file name names)) ->
  map ignore_name
      (Repository_ignored E
         (snd (IgnoreItem_create E fs (mkIgnoreItem name n))) name)
  = names ++ [n].
Proof.
  intros Hclean Hn Hfile.
  pose proof (ignored_written fs name names Hclean Hfile) as Hread.
  apply ignored_written_names.
  - apply List.Forall_app. split; [exact Hclean|]. now constructor.
  - unfold IgnoreItem_create. cbn [snd ignore_repository].
    rewrite lookup_insert_eq, Hread. unfold ignore_file.
    now rewrite List.map_app.
Qed.

(** Every name that [ignored] returns is clean, whatever the file holds. *)
Lemma ignored_clean (fs : files) (name : string) :
  Forall (fun i => ignore_repository i = name
                   /\ clean_name (ignore_name i) = true)
         (Repository_ignored E fs name).
Proof.
  unfold Repository_ignored, open_readlines.
  destruct (fs !! joinpath (Repository_path E name) ".gitignore")
    as [[stored|]|]; cbn [bind try_except]; try constructor.
  rewrite List.Forall_forall. intros i Hi.
  apply in_map_iff in Hi as (l & <- & Hl).
  apply filter_In in Hl as [Hl Ht]. cbn [ignore_repository ignore_name].
  split; [reflexivity|].
  unfold clean_name. rewrite Ht, strip_idem, String.eqb_refl. cbn [andb].
  unfold readlines in Hl.
  assert (Hcr : has_char CR (strip l) = false).
  { apply has_char_strip.
    destruct (has_char CR l) eqn:Hc; [|reflexivity].
    apply (keep_lines_chars CR _ l Hl) in Hc.
    now rewrite universal_newlines_no_CR in Hc. }
  assert (Hlf : has_char LF (strip l) = false).
  { destruct (keep_lines_body _ l Hl) as (body & Hb & [->| ->]).
    - now apply has_char_strip.
    - rewrite (strip_space body LF eq_refl). now apply has_char_strip. }
  now rewrite Hcr, Hlf.
Qed.





(** *** Comparing a branch with master *)




(** *** The log *)


Lemma mapM_raise {A B : Type} (f : A -> result B) (l : list A) (x : A) :
  In x l -> (exists e, f x = Raise e) -> exists e, mapM f l = Raise e.
Proof.
  intros Hin [e He]. induction l as [|y l IH]; [destruct Hin|].
  cbn [mapM]. destruct Hin as [->|Hin].
  - rewrite He. cbn [bind]. eauto.
  - destruct (f y) as [z|e']; cbn [bind]; [|eauto].
    destruct (IH Hin) as [e' ->]. cbn [bind]. eauto.
Qed.


(** A line of one field, a hash alone, makes the loop fail, and [log]
    then returns the empty list. *)
Lemma log_one_field (name out i h : string) :
  Repository_run_command E name
    ["git"; "log"; "--oneline"; "-5"; log_format] = Ok out ->
  In i (split LF out) ->
  split TAB (strip i) = [h] ->
  (exists e, log_line E name i = Raise e) /\ Repository_log E name = [].
Proof.
  intros Hrun Hin Hfields.
  assert (Hline : exists e, log_line E name i = Raise e).
  { unfold log_line. rewrite Hfields. cbn [length Nat.eqb index nth_error bind].
    destruct (index (split TAB i) 1) as [at_|e]; cbn [bind]; [|eauto].
    destruct (int at_) as [z|e]; cbn [bind]; [|eauto].
    destruct (fromtimestamp E z) as [t|e]; cbn [bind]; eauto. }
  split; [exact Hline|].
  unfold Repository_log. rewrite Hrun. cbn [bind].
  destruct (mapM_raise (log_line E name) _ i Hin Hline) as [e ->].
  reflexivity.
Qed.

(** The lines of the claim and of git on the code. *)
Lemma log_line_samples (name : string) :
  log_line E name "abc1234" = Raise IndexError
  /\ log_line E name (String TAB (String TAB "abc1234")) = Raise ValueError
  /\ log_line E name (String TAB ("1700000000" +:+ String TAB "abc1234"))
     = Ok (mkLogItem name "[No Commit Message]" datetime_min "1700000000").
Proof. repeat split. Qed.

(** A line of two fields yields the placeholder with the first field. *)
Lemma log_two_fields (name a b : string) :
  has_char TAB a = false -> has_char TAB b = false ->
  strip (a +:+ String TAB b) = a +:+ String TAB b ->
  log_line E name (a +:+ String TAB b)
  = Ok (mkLogItem name "[No Commit Message]" datetime_min a).
Proof.
  intros Ha Hb Hs. unfold log_line. rewrite Hs.
  assert (Hsplit : forall x y, has_char TAB x = false ->
            split TAB (x +:+ String TAB y) = x :: split TAB y).
  { induction x as [|c x IH]; intros y Hx; [reflexivity|].
    cbn [has_char] in Hx. apply orb_false_iff in Hx as [Hc Hx].
    change (String c x +:+ String TAB y) with (String c (x +:+ String TAB y)).
    cbn [split]. now rewrite Hc, (IH y Hx). }
  assert (Hone : forall y, has_char TAB y = false -> split TAB y = [y]).
  { induction y as [|c y IH]; intros Hy; [reflexivity|].
    cbn [has_char] in Hy. apply orb_false_iff in Hy as [Hc Hy].
    cbn [split]. now rewrite Hc, (IH Hy). }
  rewrite (Hsplit a b Ha), (Hone b Hb). reflexivity.
Qed.

End Repository.

Lemma ignore_roundtrip_witness :
  Repository_ignored sample_env sample_files "garden"
  = [mkIgnoreItem "garden" "build"; mkIgnoreItem "garden" "*.pyc"]
  /\ map ignore_name (Repository_ignored sample_env sample_files "garden")
     = ["build"; "*.pyc"].
Proof.
  apply (ignore_roundtrip sample_env sample_files "garden" ["build"; "*.pyc"]).
  - repeat constructor.
  - reflexivity.
Defined.

(** C4, as stated, fails: a name with whitespace at an end is read back
    without it, and an empty name is not read back at all. *)
Lemma ignore_roundtrip_counterexample :
  map ignore_name
      (Repository_ignored sample_env
         (snd (IgnoreItem_create sample_env ∅ (mkIgnoreItem "garden" " notes")))
         "garden")
  = ["notes"]
  /\ map ignore_name
       (Repository_ignored sample_env
          (<["/home/u/garden/.gitignore" := Text (ignore_file "garden" [" notes"; ""])]> ∅)
          "garden")
     <> [" notes"; ""].
Proof. split; [reflexivity|discriminate]. Qed.





Example diffs_garden :
  Repository_diffs sample_env "garden" = Ok [mkDiffItem "garden" "file.txt" "M"]
  /\ DiffItem_color (mkDiffItem "garden" "file.txt" "M") = Some "orange"
  /\ DiffItem_path sample_env (mkDiffItem "garden" "file.txt" "M")
     = "/home/u/garden/file.txt".
Proof. repeat split. Qed.

Example branches_garden :
  Repository_branches sample_env "garden"
  = Ok [mkBranch "garden" "dev"; mkBranch "garden" "* master"].
Proof. reflexivity. Qed.

Example log_garden :
  Repository_log sample_env "garden"
  = [mkLogItem "garden" "Fix bug" (Datetime 2023 11 14 22 13 20 0) "a1b2c3d"].
Proof. reflexivity. Qed.


Example to_dict_seed :
  Repository_to_dict sample_env sample_files "seed" = Raise AttributeError.
Proof. reflexivity. Qed.

Lemma readme_soft_witness :
  Repository_readme sample_env sample_files "seed" = ∅
  /\ Repository_readme sample_env sample_files "garden" !! "txt"
     = Some "# Garden"
  /\ Repository_readme sample_env sample_files "garden" !! "md"
     = Some "<p># Garden</p>".
Proof.
  split.
  - apply (proj1 (readme_soft sample_env sample_files "seed")). reflexivity.
  - apply (proj2 (proj2 (proj2 (readme_soft sample_env sample_files "garden")))
             "# Garden"). reflexivity.
Defined.


End ModelsFacts.

(** ** More of the task store: deleting, the invariant, the commands *)

Module TodosExtra.
Import Todos TodosFacts.

(** *** Helpers *)

Lemma find_filter {A : Type} (f g : A -> bool) (l : list A) :
  (forall x, f x = true -> g x = true) ->
  List.find f (List.filter g l) = List.find f l.
Proof.
  intros H. induction l as [|x l IH]; [reflexivity|].
  cbn [List.filter List.find]. destruct (g x) eqn:Hg.
  - cbn [List.find]. now rewrite IH.
  - destruct (f x) eqn:Hf; [|exact IH].
    apply H in Hf. congruence.
Qed.

Lemma map_id_filter (g : row -> bool) (l : list row) :
  List.NoDup (map r_id l) -> List.NoDup (map r_id (List.filter g l)).
Proof.
  induction l as [|x l IH]; cbn [map List.filter]; [auto|].
  intros Hnd. inversion Hnd as [|? ? Hnotin Hnd']; subst.
  destruct (g x); cbn [map]; [|auto].
  constructor; [|auto].
  intros Hin. apply Hnotin. apply in_map_iff in Hin as (r & Hr & Hin).
  apply filter_In in Hin as [Hin _]. rewrite <- Hr. now apply in_map.
Qed.


Lemma get_result (i : Z) (st : db) : get i st = (fst (get i st), st).
Proof. unfold get. now destruct (List.find _ _). Qed.



Lemma edit_ids (t : Task) (st : db) :
  map r_id (rows (snd (edit t st))) = map r_id (rows st).
Proof.
  unfold edit. cbn [snd rows]. rewrite map_map. apply map_ext.
  intros r. now destruct (id_matches (str_of_id (id t)) r).
Qed.

(** *** Deleting *)

(** [Task.delete] removes the records whose id is the id of the task and
    no other: the id then reads as unknown, every other id reads as
    before, and the id counter stays. *)
Theorem delete_frame (t : Task) (st : db) :
  exists st',
    delete t st = (Ok tt, st')
    /\ seq st' = seq st
    /\ (forall r, In r (rows st') <-> In r (rows st) /\ Some (r_id r) <> id t)
    /\ (forall j, Some j = id t -> get j st' = (Raise TypeError, st'))
    /\ (forall j, Some j <> id t -> fst (get j st') = fst (get j st)).
Proof.
  eexists. split; [reflexivity|]. cbn [seq rows].
  split; [reflexivity|].
  assert (Hin : forall r,
             In r (List.filter
                     (fun r => negb (id_matches (str_of_id (id t)) r)) (rows st))
             <-> In r (rows st) /\ Some (r_id r) <> id t).
  { intros r. rewrite filter_In, negb_true_iff.
    split; intros [Hr Hm]; (split; [exact Hr|]).
    - intros Heq. apply id_matches_id in Heq. congruence.
    - destruct (id_matches (str_of_id (id t)) r) eqn:E; [|reflexivity].
      apply id_matches_id in E. contradiction. }
  split; [exact Hin|]. split.
  - intros j Hj. unfold get. cbn [rows]. rewrite find_none_iff; [reflexivity|].
    intros r Hr. apply Hin in Hr as [_ Hne]. rewrite id_matches_str.
    apply Z.eqb_neq. congruence.
  - intros j Hj. unfold get. cbn [rows]. rewrite find_filter;
      [now destruct (List.find _ _)|].
    intros r Hm. rewrite id_matches_str in Hm. apply Z.eqb_eq in Hm.
    apply negb_true_iff.
    destruct (id_matches (str_of_id (id t)) r) eqn:E; [|reflexivity].
    apply id_matches_id in E. congruence.
Qed.

(** *** The invariant of the table *)

Lemma well_formed_add (t : Task) (st : db) :
  well_formed st -> well_formed (snd (add t st)).
Proof.
  intros [Hnd Hle]. unfold add.
  destruct (next_rowid st <=? MAX_ROWID)%Z; cbn [snd]; [|now split].
  assert (Hnext : forall r, In r (rows st) -> (r_id r < next_rowid st)%Z).
  { intros r Hr. pose proof (max_rowid_ge _ _ Hr). unfold next_rowid. lia. }
  split; cbn [rows seq].
  - rewrite List.map_app. cbn [map row_of_task r_id].
    apply List.NoDup_app; [exact Hnd|repeat constructor; intros []|].
    intros x Hx [<-|[]]. apply in_map_iff in Hx as (r & Hr & Hin).
    specialize (Hnext r Hin). lia.
  - apply List.Forall_app. split.
    + rewrite List.Forall_forall. intros r Hr. specialize (Hnext r Hr). lia.
    + repeat constructor. cbn. lia.
Qed.

Lemma well_formed_edit (t : Task) (st : db) :
  well_formed st -> well_formed (snd (edit t st)).
Proof.
  intros [Hnd Hle]. split.
  - now rewrite edit_ids.
  - unfold edit. cbn [snd rows seq]. rewrite List.Forall_forall in *.
    intros r' Hr'. apply in_map_iff in Hr' as (r & <- & Hr).
    specialize (Hle r Hr).
    now destruct (id_matches (str_of_id (id t)) r).
Qed.

Lemma well_formed_delete (t : Task) (st : db) :
  well_formed st -> well_formed (snd (delete t st)).
Proof.
  intros [Hnd Hle]. unfold delete. cbn [snd]. split; cbn [rows seq].
  - now apply map_id_filter.
  - rewrite List.Forall_forall in *. intros r Hr.
    apply filter_In in Hr as [Hr _]. auto.
Qed.

Ltac run_command :=
  unfold add_todo, edit_todo, delete_todo, todo_done, pick_todo, commit_todo,
    bindM, lift, ret;
  repeat match goal with
    | |- context [int ?s] => destruct (int s); cbn [fst snd]; try assumption
    | |- context [get ?i ?st] =>
        rewrite (get_result i st); destruct (fst (get i st));
        cbn [fst snd]; try assumption
    | |- context [if ?c ?x then _ else _] =>
        destruct (c x); cbn [fst snd]; try assumption
    end.

(** The table of sqlite stays well formed, with distinct ids none of
    which is above the id counter, under every method of [Task] and
    every command that writes; reading changes nothing. *)
Theorem well_formed_kept (st : db) :
  well_formed st ->
  (forall t, well_formed (snd (add t st)))
  /\ (forall t, well_formed (snd (edit t st)))
  /\ (forall t, well_formed (snd (delete t st)))
  /\ (forall i, snd (get i st) = st)
  /\ snd (see_list st) = st
  /\ (forall cap now title_ desc tag_ fixup,
        well_formed (snd (add_todo cap now title_ desc tag_ fixup st)))
  /\ (forall n d t s id_, well_formed (snd (edit_todo n d t s id_ st)))
  /\ (forall c id_, well_formed (snd (delete_todo c id_ st)))
  /\ (forall id_, well_formed (snd (todo_done id_ st)))
  /\ (forall id_, well_formed (snd (pick_todo id_ st)))
  /\ (forall c today run id_,
        well_formed (snd (commit_todo c today run id_ st))).
Proof.
  intros Hwf.
  split; [intros; now apply well_formed_add|].
  split; [intros; now apply well_formed_edit|].
  split; [intros; now apply well_formed_delete|].
  split; [intros; apply get_state|].
  split; [reflexivity|].
  split.
  { intros. unfold add_todo, bindM, ret.
    match goal with |- context [add ?t st] =>
      pose proof (well_formed_add t st Hwf) as H;
      destruct (add t st) as [[u|e] st'] end; exact H. }
  split.
  { intros. run_command.
    match goal with |- context [edit ?t st] =>
      pose proof (well_formed_edit t st Hwf) as H;
      destruct (edit t st) as [[u|e] st'] end; exact H. }
  split.
  { intros. run_command.
    match goal with |- context [delete ?t st] =>
      pose proof (well_formed_delete t st Hwf) as H;
      destruct (delete t st) as [[u|e] st'] end; exact H. }
  split.
  { intros. run_command.
    match goal with |- context [edit ?t st] =>
      pose proof (well_formed_edit t st Hwf) as H;
      destruct (edit t st) as [[u|e] st'] end; exact H. }
  split.
  { intros. run_command.
    match goal with |- context [edit ?t st] =>
      pose proof (well_formed_edit t st Hwf) as H;
      destruct (edit t st) as [[u|e] st'] end; exact H. }
  intros. run_command.
  match goal with |- context [edit ?t st] =>
    pose proof (well_formed_edit t st Hwf) as H;
    destruct (edit t st) as [[u|e] st'] eqn:He end; cbn [snd] in *.
  - now destruct (run _).
  - exact H.
Qed.

Lemma sample_db_well_formed : well_formed sample_db.
Proof.
  split.
  - repeat constructor; cbn; intuition discriminate.
  - repeat constructor; cbn; discriminate.
Qed.

Lemma well_formed_kept_witness :
  well_formed (snd (add sample_task sample_db))
  /\ well_formed (snd (todo_done "2" sample_db)).
Proof.
  pose proof (well_formed_kept sample_db sample_db_well_formed)
    as (Hadd & _ & _ & _ & _ & _ & _ & _ & Hdone & _).
  split; [apply Hadd|apply Hdone].
Defined.

(** An id that was stored and deleted is not given out again: after the
    deletion and any later [add], the id still reads as unknown, and
    every record that is new has a larger id. *)
Theorem deleted_id_not_reused (t t' : Task) (st : db) (i : Z) :
  well_formed st ->
  id t = Some i ->
  (exists r, In r (rows st) /\ r_id r = i) ->
  let st2 := snd (add t' (snd (delete t st))) in
  get i st2 = (Raise TypeError, st2)
  /\ (forall r, In r (rows st2) -> In r (rows st) \/ (i < r_id r)%Z).
Proof.
  intros [Hnd Hle] Hi (r0 & Hr0 & Hid0) st2.
  rewrite List.Forall_forall in Hle. pose proof (Hle r0 Hr0) as Hseq.
  set (kept := List.filter
                 (fun r => negb (id_matches (str_of_id (id t)) r)) (rows st)).
  assert (Hkept : forall r, In r kept -> In r (rows st) /\ r_id r <> i).
  { intros r Hr. apply filter_In in Hr as [Hr Hm]. split; [exact Hr|].
    apply negb_true_iff in Hm. intros Heq.
    assert (id_matches (str_of_id (id t)) r = true)
      by (apply id_matches_id; congruence).
    congruence. }
  assert (Hrows : forall r, In r (rows st2) ->
                    In r kept \/ (seq st < r_id r)%Z).
  { intros r. subst st2. unfold add, delete. cbn [snd rows seq]. fold kept.
    destruct (_ <=? MAX_ROWID)%Z; cbn [snd rows]; [|now left].
    intros Hr. apply in_app_iff in Hr as [Hr|[<-|[]]]; [now left|right].
    cbn [row_of_task r_id]. unfold next_rowid. cbn [rows seq]. lia. }
  split.
  - unfold get. rewrite find_none_iff; [reflexivity|].
    intros r Hr. rewrite id_matches_str. apply Z.eqb_neq.
    destruct (Hrows r Hr) as [Hk|Hlt]; [now apply Hkept|lia].
  - intros r Hr. destruct (Hrows r Hr) as [Hk|Hlt].
    + left. now apply Hkept.
    + right. lia.
Qed.

Lemma deleted_id_not_reused_witness :
  let st2 := snd (add sample_task
                    (snd (delete (task_of_row
                                    (mkRow "Ship" None (Some "rel")
                                           "2024-01-03 10:00:00" "open" 3))
                                 sample_db))) in
  get 3 st2 = (Raise TypeError, st2)
  /\ (forall r, In r (rows st2) -> In r (rows sample_db) \/ (3 < r_id r)%Z).
Proof.
  apply (deleted_id_not_reused
           (task_of_row (mkRow "Ship" None (Some "rel")
                               "2024-01-03 10:00:00" "open" 3))
           sample_task sample_db 3 sample_db_well_formed eq_refl).
  eexists. split; [right; right; left; reflexivity|reflexivity].
Defined.

(** *** Marking a task *)



Example todo_done_sample :
  fst (todo_done "2" sample_db) = Ok ["Write docs completed."]
  /\ map r_status (rows (snd (todo_done "2" sample_db)))
     = ["completed"; "completed"; "open"]
  /\ todo_done "two" sample_db = (Raise ValueError, sample_db)
  /\ todo_done "9" sample_db = (Raise TypeError, sample_db).
Proof. repeat split. Qed.

(** *** Viewing one task *)


Example view_todo_sample :
  fst (view_todo "3" sample_db)
  = Ok ["Ship" +:+ String LF (String LF ("open" +:+ String LF (String LF (
        "rel" +:+ String LF (String LF ("(No Description)"
        +:+ String LF (String LF "2024-01-03 10:00:00")))))))]
  /\ view_todo "three" sample_db = (Raise ValueError, sample_db)
  /\ view_todo "7" sample_db = (Raise TypeError, sample_db).
Proof. repeat split. Qed.

(** *** Editing and deleting from the command line *)












(** *** The listing *)

Lemma rank_not_completed (t : Task) :
  is_completed t = false -> (key_rank t <= 1)%Z.
Proof.
  unfold is_completed, key_rank. intros ->.
  destruct (String.eqb (status t) "active"); cbn; lia.
Qed.

Lemma rank_completed (t : Task) : is_completed t = true -> key_rank t = 3%Z.
Proof.
  unfold is_completed, key_rank. intros H. rewrite H.
  apply String.eqb_eq in H. now rewrite H.
Qed.

Lemma filter_all {A : Type} (f : A -> bool) (l : list A) :
  Forall (fun x => f x = true) l -> List.filter f l = l.
Proof.
  induction 1 as [|x l Hx _ IH]; [reflexivity|].
  cbn [List.filter]. now rewrite Hx, IH.
Qed.

Lemma filter_none {A : Type} (f : A -> bool) (l : list A) :
  Forall (fun x => f x = false) l -> List.filter f l = [].
Proof.
  induction 1 as [|x l Hx _ IH]; [reflexivity|].
  cbn [List.filter]. now rewrite Hx.
Qed.

Lemma Permutation_filter {A : Type} (f : A -> bool) (l l' : list A) :
  Permutation l l' -> Permutation (List.filter f l) (List.filter f l').
Proof.
  induction 1 as [|x l l' _ IH|x y l|l l' l'' _ IH1 _ IH2];
    cbn [List.filter].
  - constructor.
  - destruct (f x); [now constructor|exact IH].
  - destruct (f x), (f y); try reflexivity. apply perm_swap.
  - now transitivity (List.filter f l').
Qed.

Lemma completed_last (l : list Task) :
  Forall saved l -> StronglySorted key_le l ->
  l = List.filter (fun t => negb (is_completed t)) l
      ++ List.filter is_completed l.
Proof.
  intros Hsaved Hsorted.
  induction Hsorted as [|a l Hsorted IH Hle]; [reflexivity|].
  inversion Hsaved as [|? ? [x Hx] Hl]; subst. specialize (IH Hl).
  cbn [List.filter]. destruct (is_completed a) eqn:Ha; cbn [negb].
  - assert (Hall : Forall (fun t => is_completed t = true) l).
    { rewrite List.Forall_forall in *. intros b Hb.
      destruct (Hl b Hb) as [y Hy].
      pose proof (proj1 (key_le_rank a b x y Hx Hy) (Hle b Hb)) as Hab.
      destruct (is_completed b) eqn:Hb'; [reflexivity|].
      apply rank_completed in Ha. apply rank_not_completed in Hb'. lia. }
    rewrite (filter_all _ _ Hall), filter_none; [reflexivity|].
    eapply List.Forall_impl; [|exact Hall]. cbn. now intros b ->.
  - cbn [app]. now f_equal.
Qed.

(** The default view is the full view without its tail: [view_todos]
    with [--all] prints the lines of the view without it, then one line
    for each completed task. *)
Theorem view_todos_prefix (today : string) (st : db) :
  exists shown done,
    view_todos today false st = (Ok shown, st)
    /\ view_todos today true st = (Ok (shown ++ done), st)
    /\ length done
       = length (List.filter (fun r => String.eqb (r_status r) "completed")
                             (rows st)).
Proof.
  destruct (see_list_sorted_perm st) as (l & Hl & Hperm & Hsorted & Hsaved).
  exists (map (Task_str today)
            (List.filter (fun t => negb (is_completed t)) l)),
         (map (Task_str today) (List.filter is_completed l)).
  unfold view_todos, bindM, ret. rewrite Hl. split; [reflexivity|]. split.
  - rewrite <- List.map_app, <- completed_last; auto.
  - rewrite List.length_map.
    rewrite (Permutation_length
               (Permutation_filter is_completed _ _ Hperm)).
    clear. induction (rows st) as [|r rs IH]; [reflexivity|].
    cbn [map List.filter]. unfold is_completed at 1. cbn [task_of_row status].
    destruct (String.eqb (r_status r) "completed"); cbn [length]; now rewrite IH.
Qed.

Example view_todos_sample :
  fst (view_todos "09/03/2024" false sample_db)
  = Ok ["#2  Write docs                               (09/03/2024)";
        "#3  Ship                                     (rel)"]
  /\ fst (view_todos "09/03/2024" true sample_db)
     = Ok ["#2  Write docs                               (09/03/2024)";
           "#3  Ship                                     (rel)";
           "#1  Fix bug                                  (09/03/2024)"].
Proof. split; reflexivity. Qed.

Lemma see_list_unique (st : db) (l : list Task) :
  List.NoDup (map r_id (rows st)) ->
  Permutation l (map task_of_row (rows st)) ->
  StronglySorted key_le l ->
  see_list st = (Ok l, st).
Proof.
  intros Hnd Hperm Hsorted.
  destruct (see_list_sorted_perm st) as (l0 & -> & Hp0 & Hs0 & _).
  do 2 f_equal. symmetry.
  apply (StronglySorted_unique_strong key_le); auto.
  - intros x1 x2 Hx1 Hx2 H12 H21.
    apply list_elem_of_In in Hx1, Hx2.
    apply (Permutation_in _ Hperm), in_map_iff in Hx1 as (r1 & <- & Hr1).
    apply (Permutation_in _ Hp0), in_map_iff in Hx2 as (r2 & <- & Hr2).
    apply (key_le_rank (task_of_row r1) (task_of_row r2) (r_id r1) (r_id r2)
             eq_refl eq_refl) in H12.
    apply (key_le_rank (task_of_row r2) (task_of_row r1) (r_id r2) (r_id r1)
             eq_refl eq_refl) in H21.
    f_equal. apply (NoDup_map_inj r_id (rows st)); auto. lia.
  - now rewrite Hperm, Hp0.
Qed.

Lemma StronglySorted_filter {A : Type} (R : A -> A -> Prop) (f : A -> bool)
  (l : list A) :
  StronglySorted R l -> StronglySorted R (List.filter f l).
Proof.
  induction 1 as [|x l _ IH Hx]; [constructor|].
  cbn [List.filter]. destruct (f x); [|exact IH].
  constructor; [exact IH|].
  rewrite List.Forall_forall in *. intros y Hy.
  apply filter_In in Hy as [Hy _]. auto.
Qed.

(** A task added from the command line is printed last in the default
    view: [view_todos] after [add_todo] prints the lines it printed
    before, then the line of the new task, which is open and carries the
    id that sqlite assigned. *)
Theorem add_todo_listed_last (capitalize : string -> string) (now : datetime)
  (title_ : string) (desc tag_ : option string) (fixup : bool)
  (today : string) (st : db) :
  well_formed st ->
  (next_rowid st <= MAX_ROWID)%Z ->
  exists st' shown new,
    new = mkTask (if fixup then capitalize title_ else title_) desc tag_
                 (DateText (isoformat now " ")) "open" (Some (next_rowid st))
    /\ view_todos today false st = (Ok shown, st)
    /\ add_todo capitalize now title_ desc tag_ fixup st
       = (Ok [title new +:+ " added."], st')
    /\ view_todos today false st' = (Ok (shown ++ [Task_str today new]), st').
Proof.
  intros Hwf Hfree.
  set (task_ := mkTask (if fixup then capitalize title_ else title_) desc tag_
                       (DateObj now) "open" None).
  set (i := next_rowid st) in *.
  set (new := task_of_row (row_of_task task_ i)).
  set (st' := mkDb (rows st ++ [row_of_task task_ i]) i).
  assert (Hadd : add task_ st = (Ok tt, st')).
  { unfold add. cbv zeta. fold i. apply Z.leb_le in Hfree. now rewrite Hfree. }
  destruct (see_list_sorted_perm st) as (l & Hl & Hperm & Hsorted & Hsaved).
  set (A := List.filter (fun t => negb (is_completed t)) l).
  set (C := List.filter is_completed l).
  exists st', (map (Task_str today) A), new.
  split; [reflexivity|]. split.
  { unfold view_todos, bindM, ret. now rewrite Hl. }
  split.
  { unfold add_todo, bindM, ret. fold task_. now rewrite Hadd. }
  assert (Hids : forall x, In x l ->
                   exists a, id x = Some a /\ (a < i)%Z).
  { intros x Hx.
    apply (Permutation_in _ Hperm), in_map_iff in Hx as (r & <- & Hr).
    exists (r_id r). split; [reflexivity|].
    pose proof (max_rowid_ge _ _ Hr). unfold i, next_rowid. lia. }
  assert (HA : forall x, In x A -> In x l /\ is_completed x = false).
  { intros x Hx. apply filter_In in Hx as [Hx Hc].
    now apply negb_true_iff in Hc. }
  assert (HC : forall x, In x C -> In x l /\ is_completed x = true).
  { intros x Hx. now apply filter_In in Hx. }
  assert (Hnew : key_rank new = 1%Z /\ id new = Some i) by (split; reflexivity).
  destruct Hnew as [Hrank Hid].
  assert (Hlist : see_list st' = (Ok (A ++ new :: C), st')).
  { apply see_list_unique.
    - pose proof (well_formed_add task_ st Hwf) as [Hnd _].
      now rewrite Hadd in Hnd.
    - cbn [st' rows]. rewrite List.map_app. cbn [map]. fold new.
      rewrite <- Hperm, (completed_last l Hsaved Hsorted) at 1.
      fold A C. rewrite <- app_assoc. apply Permutation_app_head.
      change (new :: C) with ([new] ++ C). apply Permutation_app_comm.
    - apply StronglySorted_app_2.
      + intros x y Hx Hy. apply list_elem_of_In in Hx, Hy.
        destruct (HA x Hx) as [Hxl Hxc].
        destruct (Hids x Hxl) as (a & Ha & Hlt).
        apply rank_not_completed in Hxc.
        destruct Hy as [<-|Hy].
        * apply (key_le_rank x new a i Ha Hid). lia.
        * destruct (HC y Hy) as [Hyl Hyc].
          destruct (Hids y Hyl) as (b & Hb & _).
          apply rank_completed in Hyc.
          apply (key_le_rank x y a b Ha Hb). lia.
      + now apply StronglySorted_filter.
      + constructor; [now apply StronglySorted_filter|].
        rewrite List.Forall_forall. intros y Hy.
        destruct (HC y Hy) as [Hyl Hyc].
        destruct (Hids y Hyl) as (b & Hb & _).
        apply rank_completed in Hyc.
        apply (key_le_rank new y i b Hid Hb). lia. }
  unfold view_todos, bindM, ret. rewrite Hlist. do 2 f_equal.
  rewrite List.filter_app. cbn [List.filter].
  change (is_completed new) with false. cbn [negb].
  rewrite (filter_all _ A), (filter_none _ C).
  - now rewrite List.map_app.
  - rewrite List.Forall_forall. intros y Hy. cbn beta.
    destruct (HC y Hy) as [_ Hc]. unfold is_completed in Hc. now rewrite Hc.
  - rewrite List.Forall_forall. intros x Hx. cbn beta.
    destruct (HA x Hx) as [_ Hc]. unfold is_completed in Hc. now rewrite Hc.
Qed.

Lemma add_todo_listed_last_witness :
  exists st' shown new,
    new = mkTask "Plant bulbs" None (Some "yard")
                 (DateText (isoformat (Datetime 2024 3 9 7 5 0 0) " "))
                 "open" (Some (next_rowid sample_db))
    /\ view_todos "09/03/2024" false sample_db = (Ok shown, sample_db)
    /\ add_todo (fun s => s) (Datetime 2024 3 9 7 5 0 0) "Plant bulbs" None
         (Some "yard") false sample_db
       = (Ok [title new +:+ " added."], st')
    /\ view_todos "09/03/2024" false st'
       = (Ok (shown ++ [Task_str "09/03/2024" new]), st').
Proof.
  apply (add_todo_listed_last (fun s => s) (Datetime 2024 3 9 7 5 0 0)
           "Plant bulbs" None (Some "yard") false "09/03/2024" sample_db
           sample_db_well_formed).
  vm_compute. discriminate.
Defined.

Lemma see_list_of_set_witness :
  fst (see_list sample_db) = fst (see_list sample_db_shuffled).
Proof.
  apply (see_list_of_set sample_db sample_db_shuffled).
  - cbn [sample_db sample_db_shuffled rows].
    apply Permutation_cons_app with (l1 := [_]) (l2 := [_]).
    apply Permutation_cons_app with (l1 := [_]) (l2 := []).
    reflexivity.
  - repeat constructor; cbn; intuition discriminate.
Defined.

(** *** The printed line *)

Lemma length_append (a b : string) :
  String.length (a +:+ b) = String.length a + String.length b.
Proof.
  induction a as [|c a IH]; [reflexivity|].
  change (String c a +:+ b) with (String c (a +:+ b)).
  cbn [String.length]. now rewrite IH.
Qed.

Lemma length_spaces (n : nat) :
  String.length (String.concat "" (List.repeat " " n)) = n.
Proof.
  induction n as [|n IH]; [reflexivity|].
  destruct n as [|n]; [reflexivity|].
  change (String.concat "" (List.repeat " " (S (S n))))
    with (" " +:+ "" +:+ String.concat "" (List.repeat " " (S n))).
  rewrite !length_append, IH. reflexivity.
Qed.

Lemma length_ljust (w : nat) (s : string) :
  String.length (ljust w s) = Nat.max w (String.length s).
Proof. unfold ljust. rewrite length_append, length_spaces. lia. Qed.

Lemma length_substring (n : nat) (s : string) :
  String.length (String.substring 0 n s) = Nat.min n (String.length s).
Proof.
  revert s. induction n as [|n IH]; intros [|c s]; try reflexivity.
  cbn [String.substring String.length]. now rewrite IH.
Qed.

Lemma substring_short (n : nat) (s : string) :
  String.length s <= n -> String.substring 0 n s = s.
Proof.
  revert s. induction n as [|n IH]; intros [|c s] H; try reflexivity.
  - cbn in H. lia.
  - cbn [String.substring]. f_equal. apply IH. cbn in H. lia.
Qed.

(** The line that [Task.__str__] prints has a title column of exactly
    40 characters: a shorter title is padded with spaces, a longer one
    is cut after 40.  The whole line is 45 characters, the id column
    (two at least) and the tag, or today's date when the tag is missing
    or empty. *)
Theorem Task_str_width (today : string) (t : Task) :
  String.length (format_40_40 (title t)) = 40
  /\ (String.length (title t) <= 40 ->
      format_40_40 (title t) = ljust 40 (title t))
  /\ (40 <= String.length (title t) ->
      format_40_40 (title t) = String.substring 0 40 (title t))
  /\ String.length (Task_str today t)
     = 45 + Nat.max 2 (String.length (str_of_id (id t)))
       + String.length (or_str (tag t) today).
Proof.
  assert (Hcol : String.length (format_40_40 (title t)) = 40).
  { unfold format_40_40. rewrite length_ljust, length_substring. lia. }
  split; [exact Hcol|]. split; [|split].
  - intros H. unfold format_40_40. now rewrite substring_short.
  - intros H. unfold format_40_40, ljust.
    rewrite length_substring.
    replace (40 - Nat.min 40 (String.length (title t))) with 0 by lia.
    cbn [List.repeat String.concat].
    induction (String.substring 0 40 (title t)) as [|c s IH]; [reflexivity|].
    change (String c s +:+ "") with (String c (s +:+ "")). now rewrite IH.
  - unfold Task_str. rewrite !length_append, Hcol, length_ljust.
    cbn [String.length]. lia.
Qed.

Example Task_str_long :
  Task_str "09/03/2024"
    (mkTask "Read the whole of the long report about the garden" None
            (Some "") (DateText "") "open" (Some 12%Z))
  = "#12 Read the whole of the long report about  (09/03/2024)".
Proof. reflexivity. Qed.

Lemma Task_str_width_witness :
  format_40_40 "Ship" = ljust 40 "Ship"
  /\ format_40_40 "Read the whole of the long report about the garden"
     = "Read the whole of the long report about ".
Proof.
  split.
  - apply (proj1 (proj2 (Task_str_width ""
                           (mkTask "Ship" None None (DateText "") "open" None)))).
    vm_compute. repeat constructor.
  - apply (proj1 (proj2 (proj2 (Task_str_width ""
             (mkTask "Read the whole of the long report about the garden"
                     None None (DateText "") "open" None))))).
    vm_compute. repeat constructor.
Defined.

End TodosExtra.

(** ** More of the repository accessor *)

Module ModelsExtra.
Import Models PyFacts ModelsFacts.

Section Repository.
Context {todo_view : Type}.
Variable E : env todo_view.

(** *** Helpers *)

Lemma mapM_Forall2 {A B : Type} (f : A -> result B) (l : list A) (r : list B) :
  mapM f l = Ok r -> Forall2 (fun x y => f x = Ok y) l r.
Proof.
  revert r. induction l as [|x l IH]; intros r; cbn [mapM].
  - intros [= <-]. constructor.
  - destruct (f x) as [y|e] eqn:Hx; cbn [bind]; [|discriminate].
    destruct (mapM f l) as [ys|e]; cbn [bind]; [|discriminate].
    intros [= <-]. constructor; auto.
Qed.

Lemma mapM_raises {A B : Type} (f : A -> result B) (l : list A) (e0 : exn) :
  (forall x e, f x = Raise e -> e = e0) ->
  Exists (fun x => exists e, f x = Raise e) l ->
  mapM f l = Raise e0.
Proof.
  intros Hall Hex. induction l as [|x l IH]; [inversion Hex|].
  cbn [mapM]. destruct (f x) as [y|e] eqn:Hx; cbn [bind].
  - inversion Hex as [? ? [e He]|? ? Hex']; subst; [congruence|].
    now rewrite (IH Hex').
  - now rewrite (Hall x e Hx).
Qed.



(** *** The branches *)


(** *** The changed files *)

(** [diffs] returns one item for each line of the short status that is
    not blank, in order: its type is the first word of the line and its
    name the last component of the second.  A line of one word makes it
    raise [IndexError]. *)
Theorem diffs_lines (name out : string) :
  Repository_run_command E name ["git"; "status"; "--short"] = Ok out ->
  let lines := List.filter (fun l => truthy (strip l)) (split LF out) in
  (Forall (fun l => 2 <= length (split_ws (strip l))) lines ->
   exists ds,
     Repository_diffs E name = Ok ds
     /\ Forall2
          (fun l d =>
             diff_repository d = name
             /\ nth_error (split_ws (strip l)) 0 = Some (diff_type_ d)
             /\ exists p,
                  nth_error (split_ws (strip l)) 1 = Some p
                  /\ diff_name d
                     = path_name (joinpath (Repository_path E name) p))
          lines ds)
  /\ (Exists (fun l => length (split_ws (strip l)) < 2) lines ->
      Repository_diffs E name = Raise IndexError).
Proof.
  intros Hrun lines. unfold Repository_diffs. rewrite Hrun. cbn [bind].
  fold lines. split.
  - intros Hwords.
    match goal with |- context [mapM ?f lines] => set (item := f) end.
    destruct (mapM_defined item lines) as [ds Hds].
    { eapply List.Forall_impl; [|exact Hwords]. intros l Hl. unfold item.
      cbn beta in Hl. destruct (split_ws (strip l)) as [|t [|p ws]]; cbn in Hl; try lia.
      cbv [index nth_error bind]. eauto. }
    exists ds. split; [exact Hds|].
    apply mapM_Forall2 in Hds.
    eapply Forall2_impl; [exact Hds|]. intros l d. unfold item.
    destruct (split_ws (strip l)) as [|t [|p ws]]; cbv [index nth_error bind];
      try discriminate.
    intros [= <-]. cbn. eauto.
  - intros Hex. apply mapM_raises.
    + intros l e. unfold index.
      destruct (nth_error (split_ws (strip l)) 1); cbn [bind];
        [|now intros [= <-]].
      destruct (nth_error (split_ws (strip l)) 0); cbn [bind];
        [discriminate|now intros [= <-]].
    + eapply List.Exists_impl; [|exact Hex]. intros l Hl. cbn beta in Hl.
      destruct (split_ws (strip l)) as [|t [|p ws]]; cbn in Hl; try lia;
        cbv [index nth_error bind]; eauto.
Qed.

(** *** The remote *)


(** *** The colour of a change *)

(** [DiffItem.color] knows the types of one letter only: a type of any
    other length, such as the ["??"] that the short status prints for an
    untracked file, has no colour. *)
Theorem color_one_letter (d : DiffItem) :
  String.length (diff_type_ d) <> 1 -> DiffItem_color d = None.
Proof.
  intros Hlen. unfold DiffItem_color.
  repeat (rewrite lookup_insert_ne; [|intros Heq; rewrite <- Heq in Hlen;
                                       now apply Hlen]).
  apply lookup_empty.
Qed.

(** *** The ignore file *)

(** Whatever the ignore file holds, the names that [ignored] returns are
    not empty, have no whitespace at either end and no line break
    inside, and carry the name of the repository; a missing or
    unreadable file gives no name. *)
Theorem ignored_names_are_clean (fs : files) (name : string) :
  Forall (fun i => ignore_repository i = name
                   /\ clean_name (ignore_name i) = true)
         (Repository_ignored E fs name)
  /\ (match fs !! joinpath (Repository_path E name) ".gitignore" with
      | Some (Text _) => True
      | _ => Repository_ignored E fs name = []
      end).
Proof.
  split; [apply ignored_clean|].
  unfold Repository_ignored, open_readlines.
  now destruct (fs !! _) as [[stored|]|].
Qed.



(** *** The readme *)



(** *** The log *)







(** *** Comparing a branch with master *)


(** *** The line of a repository *)


End Repository.

(** *** The properties on the sample repositories *)


Example branches_marker_garden :
  Repository_branches sample_env "garden"
  = Ok [mkBranch "garden" "dev"; mkBranch "garden" "* master"]
  /\ Repository_current_branch sample_env "garden"
     = Ok (Some (mkBranch "garden" "master")).
Proof. split; reflexivity. Qed.

Lemma diffs_lines_witness :
  exists ds, Repository_diffs sample_env "garden" = Ok ds /\ length ds = 1.
Proof.
  destruct (diffs_lines sample_env "garden"
              (" M path/to/file.txt" +:+ String LF "") eq_refl) as [Hok _].
  destruct Hok as (ds & Hds & Hall).
  - repeat constructor.
  - exists ds. split; [exact Hds|].
    symmetry. exact (Forall2_length _ _ _ Hall).
Defined.


Lemma color_one_letter_witness :
  DiffItem_color (mkDiffItem "garden" "notes.txt" "??") = None.
Proof. apply color_one_letter. vm_compute. discriminate. Defined.

Example color_samples :
  DiffItem_color (mkDiffItem "garden" "file.txt" "M") = Some "orange"
  /\ DiffItem_color (mkDiffItem "garden" "file.txt" "?") = Some "green"
  /\ DiffItem_color (mkDiffItem "garden" "file.txt" "MM") = None.
Proof. repeat split. Qed.



Example delete_samples :
  fst (IgnoreItem_delete sample_env sample_files "garden" 2) = Raise IndexError
  /\ fst (IgnoreItem_delete sample_env sample_files "garden" (-3))
     = Raise IndexError
  /\ map ignore_name
         (Repository_ignored sample_env
            (snd (IgnoreItem_delete sample_env sample_files "garden" 0))
            "garden")
     = ["*.pyc"].
Proof. repeat split. Qed.





Lemma log_one_field_witness :
  (exists e, log_line sample_env "seed" "abc1234" = Raise e)
  /\ Repository_log sample_env "seed" = [].
Proof.
  apply (log_one_field sample_env "seed" "abc1234" "abc1234" "abc1234").
  - reflexivity.
  - left. reflexivity.
  - reflexivity.
Defined.

Example str_samples :
  Repository_str sample_env "garden"
  = Ok ("garden               (current branch: master (+0), "
        +:+ "last updated: 2023-11-14 22:13:20)")
  /\ Repository_str sample_env "seed" = Raise AttributeError.
Proof. split; reflexivity. Qed.

End ModelsExtra.
